(** * Instrument protocol engine (instrument_protocol.py)

    A shallow embedding of the protocol classes of
    [instrument_protocol.py]: the parameter descriptor
    [ParameterDictVal], the connection life cycle of [InstrumentProtocol]
    and the wakeup / command / response helpers of
    [CommandResponseInstrumentProtocol].

    Conventions of the embedding.
    - A protocol instance is a record; a method is a function from the
      instance to an outcome and the instance afterwards.  A raised
      exception keeps the mutations made before the [raise], as in Python.
    - Time is the clock of the environment, in milliseconds.  It moves in
      the steps of the environment: a [time.sleep d] lasts [d] and the
      overrun [lag] that the environment gives that step, which also covers
      the statements up to the next reading of the clock; a pass of a
      polling loop that made no sleep is a step of overrun alone.
    - The byte stream of the device is a schedule [feed]: the data handed
      to the arrival callback during the n-th step, delivered only while
      the logger client has the callback registered.
    - [while True] loops take a fuel argument; running out of fuel is the
      outcome [Diverge], distinct from every Python outcome. *)

From Stdlib Require Import ZArith String Ascii List Lia.
From Stdlib Require Import DecimalString DecimalPos DecimalZ.
From stdpp Require Import gmap strings list.

Open Scope string_scope.
Open Scope Z_scope.

(** ** Python values and exceptions *)

(** [VInt] is an [int] and [VLong] a [long], two types of Python 2. *)
Inductive value : Type :=
| VNone
| VBool (b : bool)
| VInt (z : Z)
| VLong (z : Z)
| VStr (s : string).

(** [InstErrorCode] members used by the module. *)
Inductive InstErrorCode : Type :=
| OK
| BAD_DRIVER_COMMAND.

Inductive exn : Type :=
| InstrumentConnectionException
| InstrumentTimeoutException
| InstrumentProtocolException (code : InstErrorCode)
| KeyError (key : string)
| AttributeError (attr : string)
| AssertionError
| re_error.

Inductive outcome (A : Type) : Type :=
| Return (a : A)
| Raise (e : exn)
| Diverge.

Arguments Return {A} a.
Arguments Raise {A} e.
Arguments Diverge {A}.

(** ** Strings *)

(** [starts p s]: the characters [p] begin the characters [s]. *)
Fixpoint starts (p s : list ascii) : bool :=
  match p, s with
  | [], _ => true
  | _ :: _, [] => false
  | a :: p', b :: s' => Ascii.eqb a b && starts p' s'
  end.

(** [str.endswith]: suffix comparison, on the reversed characters. *)
Definition endswith (s suffix : string) : bool :=
  starts (rev (list_ascii_of_string suffix)) (rev (list_ascii_of_string s)).

(** [str.startswith]. *)
Definition startswith (s pre : string) : bool := String.prefix pre s.

(** ** InterfaceType *)

Module InterfaceType.
Definition ETHERNET : value := VStr "ethernet".
Definition SLOW_ETHERNET : value := VStr "slow_ethernet".
Definition SERIAL : value := VStr "serial".
End InterfaceType.

(** The number a bool, an int or a long is in a comparison. *)
Definition number (v : value) : option Z :=
  match v with
  | VBool b => Some (if b then 1 else 0)
  | VInt z | VLong z => Some z
  | VNone | VStr _ => None
  end.

(** [==] on the values a configuration holds. *)
Definition value_eqb (a b : value) : bool :=
  match a, b with
  | VNone, VNone => true
  | VStr x, VStr y => String.eqb x y
  | _, _ =>
      match number a, number b with
      | Some x, Some y => Z.eqb x y
      | _, _ => false
      end
  end.

(** ** ParameterDictVal *)

(** What [regex.match] hands to [f_getval]: the matched groups. *)
Definition Match : Type := list string.

Record ParameterDictVal : Type := mkParameterDictVal {
  name : string;
  pattern : string;
  regex : string -> option Match;   (* re.compile(pattern).match *)
  f_getval : Match -> value;
  f_format : value -> option string;
  pvalue : value                    (* self.value *)
}.

(** The assignments of [ParameterDictVal.__init__] for a pattern that
    compiles; [re_compile pattern] is the [match] of the compiled pattern,
    [value=None] the default. *)
Definition ParameterDictVal_init
    (re_compile : string -> string -> option Match)
    (name pattern : string) (f_getval : Match -> value)
    (f_format : value -> option string) (v : value) : ParameterDictVal :=
  mkParameterDictVal name pattern (re_compile pattern) f_getval f_format v.

(** The call [ParameterDictVal(name, pattern, f_getval, f_format, value)].
    [re_compile] is [re.compile]: the [match] of the compiled pattern, or
    nothing for a pattern that is no regular expression, where
    [re.compile] raises [re.error] and no descriptor is made. *)
Definition ParameterDictVal_new
    (re_compile : string -> option (string -> option Match))
    (name pattern : string) (f_getval : Match -> value)
    (f_format : value -> option string) (v : value)
  : outcome ParameterDictVal :=
  match re_compile pattern with
  | Some compiled =>
      Return (ParameterDictVal_init (fun _ => compiled) name pattern
                f_getval f_format v)
  | None => Raise re_error
  end.

(** The two results of [update]: the parameter name, or [False]. *)
Inductive update_result : Type :=
| Updated (n : string)
| PyFalse.

Module ParameterDictValM.
Definition set_value (v : value) (d : ParameterDictVal) : ParameterDictVal :=
  mkParameterDictVal (name d) (pattern d) (regex d) (f_getval d)
                     (f_format d) v.

(** [ParameterDictVal.update]. *)
Definition update (input : string) (d : ParameterDictVal)
  : update_result * ParameterDictVal :=
  match regex d input with
  | Some m => (Updated (name d), set_value (f_getval d m) d)
  | None => (PyFalse, d)
  end.
End ParameterDictValM.

(** ** The transport collaborators *)

(** Modelled from the spec: [EthernetDeviceLogger] of
    [ion.services.mi.logger_process], the external transport process with
    [launch_process], [get_pid] and [stop].  [live_pid] is the pid that
    [get_pid] reports, absent while no process runs; [write_delay] is in
    milliseconds. *)
Record EthernetDeviceLogger : Type := mkEthernetDeviceLogger {
  device_addr : value;
  device_port : value;
  logger_server_port : value;
  write_delay : option Z;
  live_pid : option positive
}.

(** Modelled from the spec: [LoggerClient] of
    [ion.services.mi.logger_process], with [init_comms(callback)],
    [stop_comms] and [send].  [listening] records a registered arrival
    callback. *)
Record LoggerClient : Type := mkLoggerClient {
  server_addr : value;
  server_port : value;
  listening : bool
}.

(** ** The environment *)

Record World : Type := mkWorld {
  now : Z;                  (* time.time(), in milliseconds *)
  naps : nat;               (* steps of the environment so far *)
  feed : nat -> string;     (* data arriving during the n-th step *)
  wire : list string;       (* payloads passed to send, oldest first *)
  spawn : positive;         (* pid the next launched process gets *)
  lag : nat -> Z            (* overrun of the n-th step *)
}.

(** ** The protocol instance *)

Abbreviation builder := (string -> list value -> string) (only parsing).
Abbreviation responder := (string -> string -> value) (only parsing).

(** What a slot of [_parameters] holds: Python stores whatever is
    assigned. *)
Inductive slot : Type :=
| Descriptor (d : ParameterDictVal)
| Plain (v : value).

Record Protocol : Type := mkProtocol {
  _logger : option EthernetDeviceLogger;
  _logger_client : option LoggerClient;
  _logger_popen : option positive;
  eoln : string;
  prompts : list string;            (* self.prompts.list() *)
  subclass_attrs : list string;     (* names a subclass adds *)
  _linebuf : string;
  _promptbuf : string;
  _build_handlers : gmap string builder;
  _response_handlers : gmap string responder;
  _parameters : gmap string slot;
  world : World
}.

Definition M (A : Type) : Type := Protocol -> outcome A * Protocol.

Definition ret {A} (a : A) : M A := fun st => (Return a, st).
Definition raise {A} (e : exn) : M A := fun st => (Raise e, st).
Definition bind {A B} (m : M A) (k : A -> M B) : M B :=
  fun st =>
    match m st with
    | (Return a, st') => k a st'
    | (Raise e, st') => (Raise e, st')
    | (Diverge, st') => (Diverge, st')
    end.

Notation "x <- m ;; k" := (bind m (fun x => k))
  (at level 100, m at next level, right associativity).
Notation "m ;;; k" := (bind m (fun _ => k))
  (at level 100, right associativity).

(** Field assignments. *)
Definition set_logger (v : option EthernetDeviceLogger) (st : Protocol) :=
  mkProtocol v (_logger_client st) (_logger_popen st) (eoln st) (prompts st)
    (subclass_attrs st) (_linebuf st) (_promptbuf st) (_build_handlers st)
    (_response_handlers st) (_parameters st) (world st).
Definition set_logger_client (v : option LoggerClient) (st : Protocol) :=
  mkProtocol (_logger st) v (_logger_popen st) (eoln st) (prompts st)
    (subclass_attrs st) (_linebuf st) (_promptbuf st) (_build_handlers st)
    (_response_handlers st) (_parameters st) (world st).
Definition set_logger_popen (v : option positive) (st : Protocol) :=
  mkProtocol (_logger st) (_logger_client st) v (eoln st) (prompts st)
    (subclass_attrs st) (_linebuf st) (_promptbuf st) (_build_handlers st)
    (_response_handlers st) (_parameters st) (world st).
Definition set_linebuf (v : string) (st : Protocol) :=
  mkProtocol (_logger st) (_logger_client st) (_logger_popen st) (eoln st)
    (prompts st) (subclass_attrs st) v (_promptbuf st) (_build_handlers st)
    (_response_handlers st) (_parameters st) (world st).
Definition set_promptbuf (v : string) (st : Protocol) :=
  mkProtocol (_logger st) (_logger_client st) (_logger_popen st) (eoln st)
    (prompts st) (subclass_attrs st) (_linebuf st) v (_build_handlers st)
    (_response_handlers st) (_parameters st) (world st).
Definition set_build_handlers (v : gmap string builder) (st : Protocol) :=
  mkProtocol (_logger st) (_logger_client st) (_logger_popen st) (eoln st)
    (prompts st) (subclass_attrs st) (_linebuf st) (_promptbuf st) v
    (_response_handlers st) (_parameters st) (world st).
Definition set_parameters (v : gmap string slot) (st : Protocol) :=
  mkProtocol (_logger st) (_logger_client st) (_logger_popen st) (eoln st)
    (prompts st) (subclass_attrs st) (_linebuf st) (_promptbuf st)
    (_build_handlers st) (_response_handlers st) v (world st).
Definition set_world (v : World) (st : Protocol) :=
  mkProtocol (_logger st) (_logger_client st) (_logger_popen st) (eoln st)
    (prompts st) (subclass_attrs st) (_linebuf st) (_promptbuf st)
    (_build_handlers st) (_response_handlers st) (_parameters st) v.

(** [CommandResponseInstrumentProtocol.__init__(callback, prompts, newline)]
    in the environment [w]. *)
Definition CommandResponseInstrumentProtocol_init
    (prompts : list string) (newline : string) (w : World) : Protocol :=
  mkProtocol None None None newline prompts [] "" "" ∅ ∅ ∅ w.

(** ** Buffering and the clock *)

(** [CommandResponseInstrumentProtocol._got_data]. *)
Definition _got_data (data : string) (st : Protocol) : Protocol :=
  set_promptbuf (_promptbuf st ++ data) (set_linebuf (_linebuf st ++ data) st).

(** The arrival callback is registered with a logger client. *)
Definition attached (st : Protocol) : bool :=
  match _logger_client st with
  | Some c => listening c
  | None => false
  end.

(** A step of the environment in which the program asked for [ms]. *)
Definition tick (ms : Z) (w : World) : World :=
  mkWorld (now w + ms + lag w (naps w)) (S (naps w)) (feed w) (wire w)
          (spawn w) (lag w).

(** [time.sleep(ms / 1000.)]: the scheduled data reaches the callback, then
    the clock has advanced by [ms] and the overrun of the step. *)
Definition sleep (ms : Z) : M unit :=
  fun st =>
    let st1 := if attached st
               then _got_data (feed (world st) (naps (world st))) st
               else st in
    (Return tt, set_world (tick ms (world st1)) st1).

(** A pass of a polling loop that made no sleep: until the clock is read
    again only the environment moves, by the overrun of a step. *)
Definition spin : M unit := sleep 0.

(** [time.time()]. *)
Definition time : M Z := fun st => (Return (now (world st)), st).

(** [self._logger_client.send(data)]. *)
Definition logger_client_send (data : string) : M unit :=
  fun st =>
    match _logger_client st with
    | None => (Raise (AttributeError "send"), st)
    | Some _ =>
        let w := world st in
        (Return tt,
         set_world (mkWorld (now w) (naps w) (feed w) (wire w ++ [data])
                            (spawn w) (lag w)) st)
    end.

(** ** InstrumentProtocol: connection interface *)

(** [config[k]]. *)
Definition getitem (config : gmap string value) (k : string) : M value :=
  match config !! k with
  | Some v => ret v
  | None => raise (KeyError k)
  end.

Definition initialize : M InstErrorCode :=
  fun st => (Return OK, set_logger_client None (set_logger None st)).

(** The body shared by the two ethernet branches of [configure]. *)
Definition build_logger (config : gmap string value) (delay : option Z)
  : M unit :=
  device_addr <- getitem config "device_addr";;
  device_port <- getitem config "device_port";;
  server_addr <- getitem config "server_addr";;
  server_port <- getitem config "server_port";;
  fun st =>
    (Return tt,
     set_logger_client (Some (mkLoggerClient server_addr server_port false))
       (set_logger
          (Some (mkEthernetDeviceLogger device_addr device_port server_port
                                        delay None)) st)).

(** [InstrumentProtocol.configure]: an [if] on ETHERNET, then a separate
    [if] / [elif] / [else] chain on SLOW_ETHERNET and SERIAL. *)
Definition configure (config : gmap string value) : M InstErrorCode :=
  method <- getitem config "method";;
  (if value_eqb method InterfaceType.ETHERNET
   then build_logger config None
   else ret tt);;;
  (if value_eqb method InterfaceType.SLOW_ETHERNET
   then build_logger config (Some 100)
   else if value_eqb method InterfaceType.SERIAL
        then raise InstrumentConnectionException
        else raise InstrumentConnectionException);;;
  ret OK.

(** [self._logger.get_pid()]. *)
Definition logger_get_pid : M (option positive) :=
  fun st =>
    match _logger st with
    | None => (Raise (AttributeError "get_pid"), st)
    | Some lg => (Return (live_pid lg), st)
    end.

(** [self._logger.launch_process()]: the process starts under the next
    pid of the environment; the result is the process handle. *)
Definition logger_launch_process : M (option positive) :=
  fun st =>
    match _logger st with
    | None => (Raise (AttributeError "launch_process"), st)
    | Some lg =>
        let w := world st in
        let p := spawn w in
        (Return (Some p),
         set_world (mkWorld (now w) (naps w) (feed w) (wire w) (Pos.succ p)
                            (lag w))
           (set_logger
              (Some (mkEthernetDeviceLogger (device_addr lg) (device_port lg)
                       (logger_server_port lg) (write_delay lg) (Some p)))
              st))
    end.

(** [self._logger.stop()]. *)
Definition logger_stop : M unit :=
  fun st =>
    match _logger st with
    | None => (Raise (AttributeError "stop"), st)
    | Some lg =>
        (Return tt,
         set_logger
           (Some (mkEthernetDeviceLogger (device_addr lg) (device_port lg)
                    (logger_server_port lg) (write_delay lg) None)) st)
    end.

Definition set_listening (b : bool) (attr : string) : M unit :=
  fun st =>
    match _logger_client st with
    | None => (Raise (AttributeError attr), st)
    | Some c =>
        (Return tt,
         set_logger_client
           (Some (mkLoggerClient (server_addr c) (server_port c) b)) st)
    end.

(** [InstrumentProtocol.attach]. *)
Definition attach : M InstErrorCode :=
  set_listening true "init_comms";;; ret OK.

(** [InstrumentProtocol.detach]. *)
Definition detach : M InstErrorCode :=
  set_listening false "stop_comms";;; ret OK.

(** [InstrumentProtocol.connect].  [os.wait()] sits in a [try] that catches
    every exception and [popen.wait()] only feeds a log line: neither
    touches the instance. *)
Definition connect : M (option positive) :=
  logger_pid <- logger_get_pid;;
  match logger_pid with
  | None =>
      popen <- logger_launch_process;;
      (fun st => (Return tt, set_logger_popen popen st));;;
      sleep 200;;;
      sleep 1000;;;
      attach;;;
      ret logger_pid
  | Some _ => raise InstrumentConnectionException
  end.

(** [InstrumentProtocol.disconnect]. *)
Definition disconnect : M InstErrorCode :=
  detach;;; logger_stop;;; ret OK.

(** ** InstrumentProtocol: resource queries *)

(** Names bound in the class bodies of [InstrumentProtocol] and
    [CommandResponseInstrumentProtocol]. *)
Definition class_attrs : list string :=
  [ "__init__"; "__doc__"; "__module__";
    "initialize"; "configure"; "connect"; "disconnect"; "attach"; "detach";
    "reset"; "get"; "set"; "execute"; "execute_direct";
    "get_resource_commands"; "get_resource_params"; "get_capabilities";
    "get_current_state"; "_got_data"; "announce_to_driver";
    "_add_build_handler"; "_add_response_handler"; "_send_wakeup";
    "_wakeup"; "_get_response"; "_do_cmd_resp"; "_do_cmd_no_resp";
    "_add_param_dict"; "_get_param_dict"; "_get_param_dict_names";
    "_get_config_param_dict"; "_set_param_dict"; "_update_param_dict";
    "_format_param_dict"; "_build_simple_command"; "_int_to_string";
    "_float_to_string" ].

(** Names bound on the instance by the two [__init__] methods. *)
Definition instance_attrs : list string :=
  [ "_logger"; "_logger_client"; "_logger_popen"; "_fsm"; "send_event";
    "eoln"; "prompts"; "_linebuf"; "_promptbuf"; "_datalines";
    "_build_handlers"; "_response_handlers"; "_parameters" ].

(** Insertion into a sorted list without duplicates. *)
Fixpoint insert_name (n : string) (l : list string) : list string :=
  match l with
  | [] => [n]
  | x :: r =>
      match String.compare n x with
      | Lt => n :: l
      | Eq => l
      | Gt => x :: insert_name n r
      end
  end.

(** [dir(self)]: the sorted names of the instance and of its classes.  The
    names inherited from [object] all begin with two underscores and are
    left out. *)
Definition dir (st : Protocol) : list string :=
  fold_right insert_name []
    (instance_attrs ++ class_attrs ++ subclass_attrs st).

(** [InstrumentProtocol.get_resource_commands]. *)
Definition get_resource_commands (st : Protocol) : list string :=
  List.filter (fun cmd => startswith cmd "execute_") (dir st).

(** ** ScriptInstrumentProtocol *)

(** [ScriptInstrumentProtocol.run_script]: the body holds the docstring
    only, so the call returns [None]. *)
Definition run_script (script : string) : M value := ret VNone.

(** ** CommandResponseInstrumentProtocol: tables *)

Definition _add_build_handler (cmd : string) (func : builder) : M unit :=
  fun st =>
    (Return tt, set_build_handlers (<[cmd := func]> (_build_handlers st)) st).


(** ** Wakeup helpers *)

(** [_send_wakeup]: the body is [pass]. *)
Definition _send_wakeup : M unit := ret tt.

(** [for item in prompt_list: if buf.endswith(item): return item]. *)
Definition first_prompt (prompt_list : list string) (buf : string)
  : option string :=
  List.find (fun item => endswith buf item) prompt_list.

(** The [while True] loop of [_wakeup]; [deadline] is
    [starttime + timeout]. *)
Fixpoint _wakeup_loop (fuel : nat) (deadline : Z) : M string :=
  match fuel with
  | O => fun st => (Diverge, st)
  | S fuel' =>
      _send_wakeup;;;
      sleep 1000;;;
      fun st =>
        match first_prompt (prompts st) (_promptbuf st) with
        | Some item => (Return item, st)
        | None =>
            (t <- time;;
             if t >? deadline
             then raise InstrumentTimeoutException
             else _wakeup_loop fuel' deadline) st
        end
  end.

(** [_wakeup(timeout)], [timeout] in milliseconds. *)
Definition _wakeup (fuel : nat) (timeout : Z) : M string :=
  (fun st => (Return tt, set_promptbuf "" st));;;
  starttime <- time;;
  _wakeup_loop fuel (starttime + timeout).

(** ** Command-response helpers *)

(** The [for] loop of [_get_response]: a match returns the pair, a miss
    sleeps a tenth of a second before the next item.  Over an empty list
    it does nothing. *)
Fixpoint scan_prompts (prompt_list : list string)
  : M (option (string * string)) :=
  match prompt_list with
  | [] => ret None
  | item :: rest =>
      fun st =>
        if endswith (_promptbuf st) item
        then (Return (Some (item, _linebuf st)), st)
        else (sleep 100;;; scan_prompts rest) st
  end.

Fixpoint _get_response_loop (fuel : nat) (prompt_list : list string)
    (deadline : Z) : M (string * string) :=
  match fuel with
  | O => fun st => (Diverge, st)
  | S fuel' =>
      found <- scan_prompts prompt_list;;
      match found with
      | Some r => ret r
      | None =>
          match prompt_list with
          | [] => spin
          | _ :: _ => ret tt
          end;;;
          t <- time;;
          if t >? deadline
          then raise InstrumentTimeoutException
          else _get_response_loop fuel' prompt_list deadline
      end
  end.

(** [_get_response(timeout, expected_prompt)]; the [isinstance] assertion
    holds for every [string]. *)
Definition _get_response (fuel : nat) (timeout : Z)
    (expected_prompt : option string) : M (string * string) :=
  starttime <- time;;
  prompt_list <- (fun st =>
                    (Return match expected_prompt with
                            | None => prompts st
                            | Some p => [p]
                            end, st));;
  _get_response_loop fuel prompt_list (starttime + timeout).

(** The keyword arguments of the two command helpers. *)
Record kwargs : Type := mkKwargs {
  kw_timeout : option Z;
  kw_expected_prompt : option string
}.

(** [kwargs.get('timeout', 10)], in milliseconds. *)
Definition get_timeout (kw : kwargs) : Z :=
  match kw_timeout kw with
  | Some t => t
  | None => 10000
  end.

(** [_do_cmd_resp(cmd, *args, **kwargs)]. *)
Definition _do_cmd_resp (fuel : nat) (cmd : string) (args : list value)
    (kw : kwargs) : M value :=
  let timeout := get_timeout kw in
  let expected_prompt := kw_expected_prompt kw in
  fun st =>
    match _build_handlers st !! cmd with
    | None => (Raise (InstrumentProtocolException BAD_DRIVER_COMMAND), st)
    | Some build_handler =>
        (let cmd_line := build_handler cmd args in
         prompt <- _wakeup fuel timeout;;
         (fun st => (Return tt, set_promptbuf "" (set_linebuf "" st)));;;
         logger_client_send cmd_line;;;
         r <- _get_response fuel timeout expected_prompt;;
         let '(prompt, result) := r in
         fun st =>
           match _response_handlers st !! cmd with
           | Some resp_handler => (Return (resp_handler result prompt), st)
           | None => (Return VNone, st)
           end) st
    end.

(** [_do_cmd_no_resp(cmd, *args, **kwargs)]: after the wakeup only
    [_linebuf] is assigned. *)
Definition _do_cmd_no_resp (fuel : nat) (cmd : string) (args : list value)
    (kw : kwargs) : M InstErrorCode :=
  let timeout := get_timeout kw in
  fun st =>
    match _build_handlers st !! cmd with
    | None => (Raise (InstrumentProtocolException BAD_DRIVER_COMMAND), st)
    | Some build_handler =>
        (let cmd_line := build_handler cmd args in
         prompt <- _wakeup fuel timeout;;
         (fun st => (Return tt, set_linebuf "" st));;;
         logger_client_send cmd_line;;;
         ret OK) st
    end.

(** ** Parameter dict helpers *)

(** [_add_param_dict(name, pattern, f_getval, f_format, value)]: the
    descriptor is made first, so a pattern that does not compile raises
    before anything is stored. *)
Definition _add_param_dict
    (re_compile : string -> option (string -> option Match))
    (n pat : string) (getval : Match -> value)
    (format : value -> option string) (v : value) : M unit :=
  fun st =>
    match ParameterDictVal_new re_compile n pat getval format v with
    | Return d =>
        (Return tt,
         set_parameters (<[n := Descriptor d]> (_parameters st)) st)
    | Raise e => (Raise e, st)
    | Diverge => (Diverge, st)
    end.

(** [self._parameters[name].value]. *)
Definition _get_param_dict (n : string) : M value :=
  fun st =>
    match _parameters st !! n with
    | None => (Raise (KeyError n), st)
    | Some (Descriptor d) => (Return (pvalue d), st)
    | Some (Plain _) => (Raise (AttributeError "value"), st)
    end.

(** [self._parameters.keys()]. *)
Definition _get_param_dict_names (st : Protocol) : list string :=
  (map_to_list (_parameters st)).*1.

(** [self._parameters[name] = value]. *)
Definition _set_param_dict (n : string) (v : value) : M unit :=
  fun st =>
    (Return tt, set_parameters (<[n := Plain v]> (_parameters st)) st).

(** [_build_simple_command]. *)
Definition _build_simple_command (command : string) (st : Protocol) : string :=
  command ++ eoln st.

(** [_update_param_dict]: the first slot, in the iteration order of the
    dict, whose [update] gives a name that counts as true ends the loop;
    a match of a descriptor named by the empty string stores the value and
    the loop goes on; no match gives [None]. *)
Fixpoint update_items (input : string) (items : list (string * slot))
  : M (option string) :=
  match items with
  | [] => ret None
  | (n, Plain _) :: _ => raise (AttributeError "update")
  | (n, Descriptor d) :: rest =>
      match ParameterDictValM.update input d with
      | (Updated name_set, d') =>
          (fun st =>
             (Return tt,
              set_parameters (<[n := Descriptor d']> (_parameters st)) st));;;
          if String.eqb name_set ""
          then update_items input rest
          else ret (Some name_set)
      | (PyFalse, _) => update_items input rest
      end
  end.

Definition _update_param_dict (input : string) : M (option string) :=
  fun st => update_items input (map_to_list (_parameters st)) st.

(** ** Wake cycles *)

(** One pass of the wakeup loop up to its check: the wake signal and the
    one-second sleep. *)
Definition cycle (st : Protocol) : Protocol :=
  snd ((_send_wakeup;;; sleep 1000) st).

Fixpoint cycles (k : nat) (st : Protocol) : Protocol :=
  match k with
  | O => st
  | S k' => cycles k' (cycle st)
  end.

(** Whole seconds in the timeout. *)
Definition spare_cycles (timeout : Z) : nat := Z.to_nat (timeout / 1000).

(** ** Sample instances *)

Definition CR : string := String (ascii_of_nat 13) EmptyString.
Definition LF : string := String (ascii_of_nat 10) EmptyString.
Definition ETX : string := String (ascii_of_nat 3) EmptyString.

Definition silence : nat -> string := fun _ => "".

(** Every step overruns by a millisecond. *)
Definition world0 (f : nat -> string) : World :=
  mkWorld 0 0 f [] 1 (fun _ => 1).

Definition pristine (ps : list string) (f : nat -> string) : Protocol :=
  CommandResponseInstrumentProtocol_init ps (CR ++ LF) (world0 f).

Definition endpoint (method : string) : gmap string value :=
  <["method" := VStr method]>
    (<["device_addr" := VStr "10.0.0.7"]>
       (<["device_port" := VInt 4001]>
          (<["server_addr" := VStr "localhost"]>
             (<["server_port" := VInt 8888]> ∅)))).

(** A configured, attached instance. *)
Definition online (ps : list string) (f : nat -> string) : Protocol :=
  set_logger_client (Some (mkLoggerClient (VStr "localhost") (VInt 8888) true))
    (set_logger
       (Some (mkEthernetDeviceLogger (VStr "10.0.0.7") (VInt 4001) (VInt 8888)
                                     None (Some 1%positive)))
       (pristine ps f)).

Definition simple_builder : builder := fun cmd _ => cmd ++ CR ++ LF.

(** The device answers the second wake cycle only. *)
Definition late_feed : nat -> string :=
  fun n => match n with 1%nat => "S>" | _ => "" end.

(** The device answers the first wake cycle. *)
Definition prompt_feed : nat -> string :=
  fun n => match n with 0%nat => "ready S>" | _ => "" end.

(** Literal patterns only: the match is the pattern itself at the start of
    the input. *)
Definition literal_compile (pat input : string) : option Match :=
  if String.prefix pat input then Some [pat] else None.

(** [literal_compile] as an engine that, like [re.compile], refuses the
    pattern of a lone opening parenthesis. *)
Definition literal_engine (pat : string)
  : option (string -> option Match) :=
  if String.eqb pat "(" then None else Some (literal_compile pat).

Definition script_example : string :=
  "S=^C" ++ LF ++ "D=0.5" ++ LF ++ "S=1".

(** ** Remaining helpers of the protocol classes *)

(** [InstrumentProtocol.get_resource_params]. *)
Definition get_resource_params (st : Protocol) : list string :=
  _get_param_dict_names st.

(** The [for] loop of [_get_config_param_dict] over [iteritems()]:
    [config[key] = val.value]. *)
Fixpoint config_items (items : list (string * slot))
    (config : gmap string value) : M (gmap string value) :=
  match items with
  | [] => ret config
  | (key, Descriptor d) :: rest =>
      config_items rest (<[key := pvalue d]> config)
  | (key, Plain _) :: _ => raise (AttributeError "value")
  end.

(** [_get_config_param_dict]. *)
Definition _get_config_param_dict : M (gmap string value) :=
  fun st => config_items (map_to_list (_parameters st)) ∅ st.

(** [_format_param_dict(name, val)]:
    [self._parameters[name].f_format(val)]. *)
Definition _format_param_dict (n : string) (val : value)
  : M (option string) :=
  fun st =>
    match _parameters st !! n with
    | None => (Raise (KeyError n), st)
    | Some (Descriptor d) => (Return (f_format d val), st)
    | Some (Plain _) => (Raise (AttributeError "f_format"), st)
    end.

(** ['%i' % v]: the decimal digits, with a minus sign for a negative
    number. *)
Definition decimal (z : Z) : string := NilZero.string_of_int (Z.to_int z).

(** [_int_to_string(v)].  [isinstance(v, int)] holds for an int and for a
    bool, and fails for a long of any size. *)
Definition _int_to_string (v : value) : option string :=
  match v with
  | VInt z => Some (decimal z)
  | VBool b => Some (decimal (if b then 1 else 0))
  | VNone | VLong _ | VStr _ => None
  end.

(** ** Response polls *)

(** One miss of the loop of [_get_response] on a single prompt: the
    tenth of a second it sleeps. *)
Definition poll (st : Protocol) : Protocol := snd (sleep 100 st).

Fixpoint polls (k : nat) (st : Protocol) : Protocol :=
  match k with
  | O => st
  | S k' => polls k' (poll st)
  end.

(** The state at the clock reading that follows a pass without a hit:
    a pass over an empty list has made no sleep and spins. *)
Definition after_pass (prompt_list : list string) (st : Protocol)
  : Protocol :=
  match prompt_list with
  | [] => snd (spin st)
  | _ :: _ => st
  end.

(** Whole tenths of a second in the timeout. *)
Definition spare_polls (timeout : Z) : nat := Z.to_nat (timeout / 100).

(** The prompt buffer is the end of the line buffer. *)
Definition aligned (st : Protocol) : Prop :=
  exists pre, _linebuf st = pre ++ _promptbuf st.

(** ** Further sample instances *)

Definition flush_volume : ParameterDictVal :=
  ParameterDictVal_init literal_compile "flush_volume" "Flush Volume: "
    (fun m => VStr (List.hd "" m)) _int_to_string (VInt 150).

(** An instance with the one parameter [flush_volume]. *)
Definition with_flush (st : Protocol) : Protocol :=
  snd (_add_param_dict literal_engine "flush_volume" "Flush Volume: "
         (fun m => VStr (List.hd "" m)) _int_to_string (VInt 150) st).

(** The device answers the first wake cycle, and the command two polls
    later. *)
Definition reply_feed : nat -> string :=
  fun n =>
    match n with
    | 0%nat => "S>"
    | 3%nat => "ok" ++ CR ++ LF ++ "S>"
    | _ => ""
    end.


(** * Properties *)

(** ** Strings and sorted names *)

Lemma endswith_empty (s : string) : endswith s "" = true.
Proof. reflexivity. Qed.

Lemma first_prompt_some (ps : list string) (buf item : string) :
  first_prompt ps buf = Some item ->
  In item ps /\ endswith buf item = true.
Proof. unfold first_prompt. apply List.find_some. Qed.

Lemma first_prompt_with_empty (ps : list string) (buf : string) :
  In "" ps -> exists item, first_prompt ps buf = Some item.
Proof.
  intros Hin. unfold first_prompt.
  destruct (List.find (fun item => endswith buf item) ps) as [item|] eqn:E.
  - now exists item.
  - pose proof (List.find_none _ _ E _ Hin) as Habs.
    simpl in Habs. rewrite endswith_empty in Habs. discriminate.
Qed.

Lemma insert_name_In (x n : string) (l : list string) :
  In x (insert_name n l) <-> x = n \/ In x l.
Proof.
  induction l as [|y r IH]; simpl.
  - intuition.
  - destruct (String.compare n y) eqn:E; simpl.
    + apply String.compare_eq_iff in E. subst. intuition.
    + intuition.
    + rewrite IH. intuition.
Qed.

Lemma sorted_names_In (x : string) (l : list string) :
  In x (fold_right insert_name [] l) <-> In x l.
Proof.
  induction l as [|y r IH]; simpl.
  - reflexivity.
  - rewrite insert_name_In, IH. intuition.
Qed.

(** ** configure *)

Lemma getitem_some (config : gmap string value) (k : string) (v : value)
    (st : Protocol) :
  config !! k = Some v -> getitem config k st = (Return v, st).
Proof. intros H. unfold getitem. now rewrite H. Qed.

Lemma build_logger_ok (config : gmap string value) (delay : option Z)
    (da dp sa sp : value) (st : Protocol) :
  config !! "device_addr" = Some da ->
  config !! "device_port" = Some dp ->
  config !! "server_addr" = Some sa ->
  config !! "server_port" = Some sp ->
  build_logger config delay st =
    (Return tt,
     set_logger_client (Some (mkLoggerClient sa sp false))
       (set_logger (Some (mkEthernetDeviceLogger da dp sp delay None)) st)).
Proof.
  intros Hda Hdp Hsa Hsp. unfold build_logger, bind.
  rewrite (getitem_some _ _ _ _ Hda), (getitem_some _ _ _ _ Hdp),
    (getitem_some _ _ _ _ Hsa), (getitem_some _ _ _ _ Hsp).
  reflexivity.
Qed.

(** The SLOW_ETHERNET branch builds both handles and returns OK. *)
Lemma configure_slow_ethernet (config : gmap string value)
    (da dp sa sp : value) (st : Protocol) :
  config !! "method" = Some InterfaceType.SLOW_ETHERNET ->
  config !! "device_addr" = Some da ->
  config !! "device_port" = Some dp ->
  config !! "server_addr" = Some sa ->
  config !! "server_port" = Some sp ->
  configure config st =
    (Return OK,
     set_logger_client (Some (mkLoggerClient sa sp false))
       (set_logger (Some (mkEthernetDeviceLogger da dp sp (Some 100) None))
          st)).
Proof.
  intros Hm Hda Hdp Hsa Hsp. unfold configure, bind.
  rewrite (getitem_some _ _ _ _ Hm). simpl.
  rewrite (build_logger_ok _ _ _ _ _ _ _ Hda Hdp Hsa Hsp). reflexivity.
Qed.

(** A method that is neither ETHERNET nor SLOW_ETHERNET raises and leaves
    the instance as it was. *)
Lemma configure_other_method (config : gmap string value) (method : value)
    (st : Protocol) :
  config !! "method" = Some method ->
  value_eqb method InterfaceType.ETHERNET = false ->
  value_eqb method InterfaceType.SLOW_ETHERNET = false ->
  configure config st = (Raise InstrumentConnectionException, st).
Proof.
  intros Hm He Hs. unfold configure, bind.
  rewrite (getitem_some _ _ _ _ Hm), He, Hs. simpl.
  destruct (value_eqb method InterfaceType.SERIAL); reflexivity.
Qed.

(** C1 (configure): on a mapping whose method is 'ethernet', with the four
    endpoint keys present, [configure] first builds the logger and its
    client and then falls into the [else] of the second conditional: it
    raises the connection error with both handles already assigned, where
    the claim has it return the success marker. *)
Theorem configure_ethernet_raises (config : gmap string value)
    (da dp sa sp : value) (st : Protocol) :
  config !! "method" = Some InterfaceType.ETHERNET ->
  config !! "device_addr" = Some da ->
  config !! "device_port" = Some dp ->
  config !! "server_addr" = Some sa ->
  config !! "server_port" = Some sp ->
  configure config st =
    (Raise InstrumentConnectionException,
     set_logger_client (Some (mkLoggerClient sa sp false))
       (set_logger (Some (mkEthernetDeviceLogger da dp sp None None)) st)).
Proof.
  intros Hm Hda Hdp Hsa Hsp. unfold configure, bind.
  rewrite (getitem_some _ _ _ _ Hm). simpl.
  rewrite (build_logger_ok _ _ _ _ _ _ _ Hda Hdp Hsa Hsp). reflexivity.
Qed.

Lemma configure_ethernet_raises_witness :
  fst (configure (endpoint "ethernet") (pristine [] silence))
    = Raise InstrumentConnectionException
  /\ _logger (snd (configure (endpoint "ethernet") (pristine [] silence)))
       <> _logger (pristine [] silence).
Proof.
  rewrite (configure_ethernet_raises (endpoint "ethernet")
             (VStr "10.0.0.7") (VInt 4001) (VStr "localhost") (VInt 8888)
             (pristine [] silence));
    [ | reflexivity | reflexivity | reflexivity | reflexivity | reflexivity ].
  split; [reflexivity | discriminate].
Defined.

(** ** _do_cmd_resp on an unregistered command *)

(** C2 (_do_cmd_resp): for a command id without a registered builder the
    call raises the bad-command protocol error and the instance, with its
    clock, its sleep count and its record of transmitted payloads, is
    untouched: no wakeup, no sleep, nothing sent, whatever the arguments,
    the timeout and the buffers. *)
Theorem do_cmd_resp_unregistered (fuel : nat) (cmd : string)
    (args : list value) (kw : kwargs) (st : Protocol) :
  _build_handlers st !! cmd = None ->
  _do_cmd_resp fuel cmd args kw st =
    (Raise (InstrumentProtocolException BAD_DRIVER_COMMAND), st).
Proof. intros H. unfold _do_cmd_resp. now rewrite H. Qed.

Lemma do_cmd_resp_unregistered_witness :
  _do_cmd_resp 3 "acquire" [VInt 1] (mkKwargs (Some 2000) None)
    (online ["S>"] prompt_feed)
  = (Raise (InstrumentProtocolException BAD_DRIVER_COMMAND),
     online ["S>"] prompt_feed).
Proof.
  apply (do_cmd_resp_unregistered 3 "acquire" [VInt 1]
           (mkKwargs (Some 2000) None) (online ["S>"] prompt_feed)).
  reflexivity.
Defined.

(** ** ParameterDictVal.update *)

(** C4 (ParameterDictVal.update): [update] returns the descriptor's name
    exactly when its compiled pattern matches the input; on a match the
    stored value is the extraction function applied to the match, and
    without a match the descriptor is unchanged and the result is
    [False]. *)
Theorem update_spec (d : ParameterDictVal) (t : string) :
  (fst (ParameterDictValM.update t d) = Updated (name d)
     <-> is_Some (regex d t))
  /\ (forall m, regex d t = Some m ->
        pvalue (snd (ParameterDictValM.update t d)) = f_getval d m)
  /\ (regex d t = None -> ParameterDictValM.update t d = (PyFalse, d)).
Proof.
  unfold ParameterDictValM.update.
  destruct (regex d t) as [m|] eqn:E; simpl.
  - repeat split; eauto.
    + intros m' [= <-]. reflexivity.
    + discriminate.
  - repeat split.
    + discriminate.
    + intros [m Hm]. discriminate.
    + discriminate.
Qed.

Lemma update_spec_witness :
  pvalue
    (snd (ParameterDictValM.update "Flush Volume: 150mL"
            (ParameterDictVal_init literal_compile "flush_volume"
               "Flush Volume: " (fun m => VStr (List.hd "" m))
               (fun _ => None) VNone)))
  = VStr "Flush Volume: ".
Proof.
  apply (proj1 (proj2 (update_spec
            (ParameterDictVal_init literal_compile "flush_volume"
               "Flush Volume: " (fun m => VStr (List.hd "" m))
               (fun _ => None) VNone)
            "Flush Volume: 150mL")) ["Flush Volume: "]).
  reflexivity.
Defined.

(** The other fields of a descriptor never change in [update]. *)
Lemma update_keeps_shape (d : ParameterDictVal) (t : string) :
  let d' := snd (ParameterDictValM.update t d) in
  name d' = name d /\ pattern d' = pattern d /\ regex d' = regex d.
Proof.
  unfold ParameterDictValM.update. destruct (regex d t); simpl; auto.
Qed.

(** ** _set_param_dict and _get_param_dict *)

(** Writing to a registered name leaves the set of names as it was. *)
Lemma set_param_dict_names (n : string) (v : value) (st : Protocol) :
  is_Some (_parameters st !! n) ->
  dom (_parameters (snd (_set_param_dict n v st))) = dom (_parameters st).
Proof.
  intros Hn. simpl. rewrite dom_insert_L.
  apply elem_of_dom in Hn. apply subseteq_union_1_L.
  now apply singleton_subseteq_l.
Qed.

(** C6 (_set_param_dict / _get_param_dict): [_set_param_dict n v] binds the
    name to the bare value, replacing the descriptor, so the read that
    follows finds no [value] attribute and raises [AttributeError] where
    the claim has it return [v]. *)
Theorem set_param_then_get_raises (n : string) (v : value) (st : Protocol) :
  _parameters (snd (_set_param_dict n v st)) !! n = Some (Plain v)
  /\ _get_param_dict n (snd (_set_param_dict n v st)) =
       (Raise (AttributeError "value"), snd (_set_param_dict n v st)).
Proof.
  unfold _get_param_dict. simpl. rewrite lookup_insert_eq. split; reflexivity.
Qed.

(** ** run_script *)

(** C8 (run_script): on the script of the claim [run_script] returns [None]
    with the instance untouched; the record of transmitted payloads and the
    clock are as before, so no control-C, no "1" and no half-second
    suspension happen. *)
Theorem run_script_sends_nothing (st : Protocol) :
  run_script script_example st = (Return VNone, st)
  /\ wire (world (snd (run_script script_example st))) = wire (world st)
  /\ now (world (snd (run_script script_example st))) = now (world st).
Proof. repeat split. Qed.

(** ** get_resource_commands *)

Lemma add_build_handler_dir (cmd : string) (func : builder) (st : Protocol) :
  dir (snd (_add_build_handler cmd func st)) = dir st.
Proof. reflexivity. Qed.

(** C9 (get_resource_commands), as amended: the result is exactly the names
    of [dir(self)] that start with "execute_"; registering a builder never
    changes it, and it always holds "execute_direct". *)
Theorem get_resource_commands_spec (st : Protocol) :
  (forall c, In c (get_resource_commands st)
             <-> In c (dir st) /\ startswith c "execute_" = true)
  /\ (forall cmd func,
        get_resource_commands (snd (_add_build_handler cmd func st))
        = get_resource_commands st)
  /\ In "execute_direct" (get_resource_commands st).
Proof.
  split; [|split].
  - intros c. unfold get_resource_commands.
    exact (List.filter_In (fun cmd => startswith cmd "execute_") c (dir st)).
  - reflexivity.
  - unfold get_resource_commands.
    apply (List.filter_In (fun cmd => startswith cmd "execute_")). split.
    + unfold dir. apply sorted_names_In. rewrite !in_app_iff.
      right. left. unfold class_attrs. simpl. tauto.
    + reflexivity.
Qed.

(** C9 as stated fails: after registering a builder for "acquire" on a
    pristine instance the result is ["execute_direct"], not the keys of the
    builder table. *)
Lemma get_resource_commands_counterexample :
  ~ (forall c,
       In c (get_resource_commands
               (snd (_add_build_handler "acquire" simple_builder
                       (pristine [] silence))))
       <-> is_Some (_build_handlers
                      (snd (_add_build_handler "acquire" simple_builder
                              (pristine [] silence))) !! c)).
Proof.
  intros H. destruct (H "acquire") as [_ Hin].
  assert (Hreg : is_Some (_build_handlers
                    (snd (_add_build_handler "acquire" simple_builder
                            (pristine [] silence))) !! "acquire")).
  { simpl. rewrite lookup_insert_eq. eauto. }
  specialize (Hin Hreg). vm_compute in Hin.
  destruct Hin as [Heq | []]. discriminate Heq.
Qed.

(** ** The monad and the clock *)

Lemma bind_return {A B : Type} (m : M A) (k : A -> M B) (st st' : Protocol)
    (a : A) :
  m st = (Return a, st') -> bind m k st = k a st'.
Proof. intros H. unfold bind. now rewrite H. Qed.

Lemma sleep_keeps_handles (ms : Z) (st : Protocol) :
  _logger (snd (sleep ms st)) = _logger st
  /\ _logger_client (snd (sleep ms st)) = _logger_client st
  /\ _logger_popen (snd (sleep ms st)) = _logger_popen st.
Proof. unfold sleep. simpl. destruct (attached st); repeat split. Qed.

(** ** connect *)

(** C5 (connect): with no live pid, [connect] launches the process (which
    gets the pid [spawn]), stores its handle, registers the arrival
    callback, and returns the value of the pid query made before the
    launch, which is [None], not the pid of the launched process. *)
Theorem connect_returns_stale_pid (st : Protocol)
    (lg : EthernetDeviceLogger) (c : LoggerClient) :
  _logger st = Some lg ->
  live_pid lg = None ->
  _logger_client st = Some c ->
  exists st' lg',
    connect st = (Return None, st')
    /\ _logger st' = Some lg'
    /\ live_pid lg' = Some (spawn (world st))
    /\ _logger_popen st' = Some (spawn (world st))
    /\ attached st' = true.
Proof.
  intros Hlg Hpid Hc.
  set (p := spawn (world st)).
  set (lg' := mkEthernetDeviceLogger (device_addr lg) (device_port lg)
                (logger_server_port lg) (write_delay lg) (Some p)).
  set (st1 := snd (logger_launch_process st)).
  set (st2 := set_logger_popen (Some p) st1).
  set (st3 := snd (sleep 200 st2)).
  set (st4 := snd (sleep 1000 st3)).
  assert (H1 : logger_launch_process st = (Return (Some p), st1)).
  { unfold st1, logger_launch_process. now rewrite Hlg. }
  assert (Hl1 : _logger st1 = Some lg' /\ _logger_client st1 = Some c).
  { unfold st1, logger_launch_process. rewrite Hlg. simpl. now rewrite Hc. }
  destruct (sleep_keeps_handles 200 st2) as (Hl3 & Hc3 & Hp3).
  destruct (sleep_keeps_handles 1000 st3) as (Hl4 & Hc4 & Hp4).
  fold st3 in Hl3, Hc3, Hp3, Hl4, Hc4, Hp4. fold st4 in Hl4, Hc4, Hp4.
  assert (Hc4' : _logger_client st4 = Some c).
  { rewrite Hc4, Hc3. apply Hl1. }
  exists (set_logger_client
            (Some (mkLoggerClient (server_addr c) (server_port c) true)) st4),
    lg'.
  split; [|repeat split].
  - unfold connect.
    rewrite (bind_return _ _ st st None)
      by (unfold logger_get_pid; now rewrite Hlg, Hpid).
    rewrite (bind_return _ _ _ _ _ H1).
    rewrite (bind_return _ _ st1 st2 tt) by reflexivity.
    rewrite (bind_return _ _ st2 st3 tt) by reflexivity.
    rewrite (bind_return _ _ st3 st4 tt) by reflexivity.
    unfold attach, set_listening.
    rewrite (bind_return _ _ st4
               (set_logger_client
                  (Some (mkLoggerClient (server_addr c) (server_port c) true))
                  st4) OK).
    + reflexivity.
    + unfold bind. rewrite Hc4'. reflexivity.
  - change (_logger st4 = Some lg'). rewrite Hl4, Hl3. apply Hl1.
  - change (_logger_popen st4 = Some p). now rewrite Hp4, Hp3.
Qed.

Lemma connect_returns_stale_pid_witness :
  exists st' lg',
    connect (snd (configure (endpoint "slow_ethernet") (pristine [] silence)))
      = (Return None, st')
    /\ _logger st' = Some lg'
    /\ live_pid lg' = Some 1%positive
    /\ _logger_popen st' = Some 1%positive
    /\ attached st' = true.
Proof.
  apply (connect_returns_stale_pid
           (snd (configure (endpoint "slow_ethernet") (pristine [] silence)))
           (mkEthernetDeviceLogger (VStr "10.0.0.7") (VInt 4001) (VInt 8888)
              (Some 100) None)
           (mkLoggerClient (VStr "localhost") (VInt 8888) false));
    reflexivity.
Defined.

(** A second [connect] finds the live pid and raises. *)
Lemma connect_twice_raises (st : Protocol) (lg : EthernetDeviceLogger)
    (p : positive) :
  _logger st = Some lg ->
  live_pid lg = Some p ->
  connect st = (Raise InstrumentConnectionException, st).
Proof.
  intros Hlg Hpid. unfold connect, bind, logger_get_pid.
  rewrite Hlg, Hpid. reflexivity.
Qed.

(** ** Wake cycles *)

Lemma cycle_prompts (st : Protocol) : prompts (cycle st) = prompts st.
Proof. unfold cycle, bind, sleep. simpl. now destruct (attached st). Qed.

Lemma cycle_now (st : Protocol) :
  now (world (cycle st))
  = now (world st) + 1000 + lag (world st) (naps (world st)).
Proof. unfold cycle, bind, sleep. simpl. now destruct (attached st). Qed.

Lemma cycle_naps (st : Protocol) :
  naps (world (cycle st)) = S (naps (world st)).
Proof. unfold cycle, bind, sleep. simpl. now destruct (attached st). Qed.

Lemma cycle_lag (st : Protocol) : lag (world (cycle st)) = lag (world st).
Proof. unfold cycle, bind, sleep. simpl. now destruct (attached st). Qed.

Lemma cycle_feed (st : Protocol) : feed (world (cycle st)) = feed (world st).
Proof. unfold cycle, bind, sleep. simpl. now destruct (attached st). Qed.

Lemma cycle_wire (st : Protocol) : wire (world (cycle st)) = wire (world st).
Proof. unfold cycle, bind, sleep. simpl. now destruct (attached st). Qed.

(** The bytes a wake cycle adds to the prompt buffer. *)
Lemma cycle_promptbuf (st : Protocol) :
  _promptbuf (cycle st) =
    if attached st
    then _promptbuf st ++ feed (world st) (naps (world st))
    else _promptbuf st.
Proof. unfold cycle, bind, sleep. simpl. now destruct (attached st). Qed.

Lemma cycles_end (k : nat) :
  forall st, cycles (S k) st = cycle (cycles k st).
Proof.
  induction k as [|k IH]; intros st; [reflexivity|].
  change (cycles (S (S k)) st) with (cycles (S k) (cycle st)).
  now rewrite IH.
Qed.

Lemma cycles_lag (k : nat) :
  forall st, lag (world (cycles k st)) = lag (world st).
Proof.
  induction k as [|k IH]; intros st; [reflexivity|].
  change (cycles (S k) st) with (cycles k (cycle st)).
  now rewrite IH, cycle_lag.
Qed.

Lemma cycles_naps (k : nat) :
  forall st, naps (world (cycles k st)) = (naps (world st) + k)%nat.
Proof.
  induction k as [|k IH]; intros st.
  - simpl. lia.
  - change (cycles (S k) st) with (cycles k (cycle st)).
    rewrite IH, cycle_naps. lia.
Qed.

(** A device that stays silent leaves an empty prompt buffer empty. *)
Lemma silent_cycles (k : nat) :
  forall st,
    (forall n, feed (world st) n = "") ->
    _promptbuf st = "" ->
    _promptbuf (cycles k st) = "".
Proof.
  induction k as [|k IH]; intros st Hfeed Hbuf; [exact Hbuf|].
  change (cycles (S k) st) with (cycles k (cycle st)).
  apply IH.
  - intros n. now rewrite cycle_feed.
  - rewrite cycle_promptbuf, Hbuf, Hfeed. now destruct (attached st).
Qed.

Lemma gtb_false (a b : Z) : a <= b -> (a >? b) = false.
Proof. intros H. rewrite Z.gtb_ltb. now apply Z.ltb_ge. Qed.

Lemma gtb_true (a b : Z) : b < a -> (a >? b) = true.
Proof. intros H. rewrite Z.gtb_ltb. now apply Z.ltb_lt. Qed.

Lemma gtb_cases (a b : Z) :
  ((a >? b) = true /\ b < a) \/ ((a >? b) = false /\ a <= b).
Proof.
  destruct (Z_lt_le_dec b a) as [H|H].
  - left. split; [now apply gtb_true | exact H].
  - right. split; [now apply gtb_false | exact H].
Qed.

(** What the search of the prompt list finds, spelled out on the list. *)
Lemma first_prompt_none (ps : list string) (buf : string) :
  first_prompt ps buf = None
  <-> (forall q, In q ps -> endswith buf q = false).
Proof.
  unfold first_prompt. split.
  - intros H q Hq. exact (List.find_none _ _ H q Hq).
  - induction ps as [|a ps IH]; intros H; [reflexivity|].
    simpl. rewrite (H a (or_introl eq_refl)).
    apply IH. intros q Hq. apply H. now right.
Qed.

Lemma first_prompt_split (ps : list string) (buf p : string) :
  first_prompt ps buf = Some p ->
  exists l1 l2,
    ps = (l1 ++ p :: l2)%list
    /\ (forall q, In q l1 -> endswith buf q = false)
    /\ endswith buf p = true.
Proof.
  unfold first_prompt. induction ps as [|a ps IH]; [discriminate|].
  simpl. destruct (endswith buf a) eqn:E.
  - intros [= <-]. exists [], ps.
    split; [reflexivity|]. split; [intros q []|exact E].
  - intros H. destruct (IH H) as (l1 & l2 & -> & Hmiss & Hhit).
    exists (a :: l1), l2.
    split; [reflexivity|]. split; [|exact Hhit].
    intros q [<-|Hq]; auto.
Qed.

(** One unfolding of the wakeup loop. *)
Lemma wakeup_loop_step (fuel : nat) (deadline : Z) (st : Protocol) :
  _wakeup_loop (S fuel) deadline st =
    match first_prompt (prompts st) (_promptbuf (cycle st)) with
    | Some item => (Return item, cycle st)
    | None =>
        if now (world (cycle st)) >? deadline
        then (Raise InstrumentTimeoutException, cycle st)
        else _wakeup_loop fuel deadline (cycle st)
    end.
Proof.
  rewrite <- (cycle_prompts st).
  change (_wakeup_loop (S fuel) deadline st)
    with (match first_prompt (prompts (cycle st)) (_promptbuf (cycle st)) with
          | Some item => (Return item, cycle st)
          | None =>
              (t <- time;;
               if t >? deadline
               then raise InstrumentTimeoutException
               else _wakeup_loop fuel deadline) (cycle st)
          end).
  destruct (first_prompt (prompts (cycle st)) (_promptbuf (cycle st)));
    [reflexivity|].
  unfold bind, time, raise.
  now destruct (now (world (cycle st)) >? deadline).
Qed.

(** The run of the wakeup loop when the overruns are not negative: it ends
    within [n + 1] cycles, [n] the whole seconds left to the deadline, at
    the first check that hits, or at the first miss past the deadline. *)
Lemma wakeup_loop_run (n : nat) :
  forall (fuel : nat) (deadline : Z) (st : Protocol),
    (forall j, 0 <= lag (world st) j) ->
    (n < fuel)%nat ->
    deadline < now (world st) + 1000 * Z.of_nat (S n) ->
    exists k,
      (k <= n)%nat
      /\ (forall j, (j < k)%nat ->
            first_prompt (prompts st) (_promptbuf (cycles (S j) st)) = None
            /\ now (world (cycles (S j) st)) <= deadline)
      /\ ((exists p,
             first_prompt (prompts st) (_promptbuf (cycles (S k) st))
             = Some p
             /\ _wakeup_loop fuel deadline st = (Return p, cycles (S k) st))
          \/ (first_prompt (prompts st) (_promptbuf (cycles (S k) st)) = None
              /\ deadline < now (world (cycles (S k) st))
              /\ _wakeup_loop fuel deadline st
                 = (Raise InstrumentTimeoutException, cycles (S k) st))).
Proof.
  induction n as [|n IH]; intros fuel deadline st Hlag Hfuel Hdl;
    (destruct fuel as [|fuel]; [lia|]); rewrite wakeup_loop_step;
    pose proof (cycle_now st) as Hnow;
    pose proof (Hlag (naps (world st))) as Hl;
    destruct (first_prompt (prompts st) (_promptbuf (cycle st))) as [p|]
      eqn:E.
  - exists 0%nat. split; [lia|]. split; [intros j Hj; lia|].
    left. exists p. split; [exact E | reflexivity].
  - exists 0%nat. split; [lia|]. split; [intros j Hj; lia|].
    right. rewrite gtb_true by lia.
    split; [exact E|]. split; [|reflexivity].
    change (cycles 1 st) with (cycle st). lia.
  - exists 0%nat. split; [lia|]. split; [intros j Hj; lia|].
    left. exists p. split; [exact E | reflexivity].
  - destruct (gtb_cases (now (world (cycle st))) deadline) as [[T Ht]|[T Ht]];
      rewrite T.
    + exists 0%nat. split; [lia|]. split; [intros j Hj; lia|].
      right. split; [exact E|]. split; [exact Ht | reflexivity].
    + destruct (IH fuel deadline (cycle st)) as (k & Hk & Hmiss & Hend).
      * intros j. rewrite cycle_lag. apply Hlag.
      * lia.
      * lia.
      * rewrite cycle_prompts in Hmiss, Hend.
        exists (S k). split; [lia|]. split; [|exact Hend].
        intros [|j] Hj.
        -- split; [exact E | exact Ht].
        -- apply (Hmiss j). lia.
Qed.

(** Arithmetic of the timeout test. *)
Lemma spare_cycles_beyond (timeout : Z) :
  timeout < 1000 * Z.of_nat (S (spare_cycles timeout)).
Proof.
  unfold spare_cycles.
  pose proof (Z.mul_succ_div_gt timeout 1000 ltac:(lia)). lia.
Qed.

Lemma wakeup_unfold (fuel : nat) (timeout : Z) (st : Protocol) :
  _wakeup fuel timeout st =
    _wakeup_loop fuel (now (world st) + timeout) (set_promptbuf "" st).
Proof. reflexivity. Qed.

Lemma wakeup_loop_result (fuel : nat) :
  forall (deadline : Z) (st st1 : Protocol) (p : string),
    _wakeup_loop fuel deadline st = (Return p, st1) ->
    first_prompt (prompts st) (_promptbuf st1) = Some p.
Proof.
  induction fuel as [|fuel IH]; intros deadline st st1 p H.
  - discriminate H.
  - rewrite wakeup_loop_step in H.
    destruct (first_prompt (prompts st) (_promptbuf (cycle st))) as [item|]
      eqn:E.
    + injection H as <- <-. exact E.
    + destruct (now (world (cycle st)) >? deadline); [discriminate H|].
      apply IH in H. now rewrite cycle_prompts in H.
Qed.

(** What [_wakeup] returns is a configured prompt that ends the prompt
    buffer it leaves behind. *)
Lemma wakeup_result (fuel : nat) (timeout : Z) (st st1 : Protocol)
    (p : string) :
  _wakeup fuel timeout st = (Return p, st1) ->
  In p (prompts st) /\ endswith (_promptbuf st1) p = true.
Proof.
  rewrite wakeup_unfold. intros H. apply wakeup_loop_result in H.
  now apply first_prompt_some in H.
Qed.

(** ** _wakeup *)

(** C3 (_wakeup), as amended.  [_wakeup] starts from an empty prompt
    buffer whatever the buffer held.  When no sleep ends early (the
    overruns [lag] are not negative) and the fuel covers the
    [n = spare_cycles timeout] whole seconds of the timeout, the call runs
    [k + 1] wake cycles for some [k <= n] and ends at the check after the
    last one: every earlier check found no configured prompt at the end of
    the buffer and the clock not past the timeout; the last check either
    finds the buffer ending with a configured prompt, and the call returns
    the first such prompt in the order of the configured list, or finds
    none with the clock past the timeout, and the call raises the timeout
    error.  Either way it ends no later than [max 0 timeout], one second
    and the overrun of the last sleep after it began.  So when the bytes
    that arrive never make the buffer end with a configured prompt, the
    call raises the timeout error within that bound. *)
Theorem wakeup_spec (timeout : Z) (st : Protocol) (fuel : nat) :
  (forall j, 0 <= lag (world st) j) ->
  (spare_cycles timeout < fuel)%nat ->
  (forall buf,
     _wakeup fuel timeout (set_promptbuf buf st) = _wakeup fuel timeout st)
  /\ (exists k : nat,
        (k <= spare_cycles timeout)%nat
        /\ (forall j, (j < k)%nat ->
              (forall q, In q (prompts st) ->
                 endswith (_promptbuf (cycles (S j) (set_promptbuf "" st))) q
                 = false)
              /\ now (world (cycles (S j) (set_promptbuf "" st)))
                 <= now (world st) + timeout)
        /\ now (world (cycles (S k) (set_promptbuf "" st))) - now (world st)
           <= Z.max 0 timeout + 1000
              + lag (world st) (naps (world st) + k)%nat
        /\ ((exists l1 p l2,
               prompts st = (l1 ++ p :: l2)%list
               /\ (forall q, In q l1 ->
                     endswith
                       (_promptbuf (cycles (S k) (set_promptbuf "" st))) q
                     = false)
               /\ endswith (_promptbuf (cycles (S k) (set_promptbuf "" st))) p
                  = true
               /\ _wakeup fuel timeout st
                  = (Return p, cycles (S k) (set_promptbuf "" st)))
            \/ ((forall q, In q (prompts st) ->
                   endswith
                     (_promptbuf (cycles (S k) (set_promptbuf "" st))) q
                   = false)
                /\ now (world st) + timeout
                   < now (world (cycles (S k) (set_promptbuf "" st)))
                /\ _wakeup fuel timeout st
                   = (Raise InstrumentTimeoutException,
                      cycles (S k) (set_promptbuf "" st)))))
  /\ ((forall j q,
         In q (prompts st) ->
         endswith (_promptbuf (cycles (S j) (set_promptbuf "" st))) q
         = false) ->
      exists k : nat,
        (k <= spare_cycles timeout)%nat
        /\ _wakeup fuel timeout st
           = (Raise InstrumentTimeoutException,
              cycles (S k) (set_promptbuf "" st))
        /\ now (world (cycles (S k) (set_promptbuf "" st))) - now (world st)
           <= Z.max 0 timeout + 1000
              + lag (world st) (naps (world st) + k)%nat).
Proof.
  intros Hlag Hfuel. split; [intros buf; now rewrite !wakeup_unfold|].
  set (st0 := set_promptbuf "" st).
  destruct (wakeup_loop_run (spare_cycles timeout) fuel
              (now (world st) + timeout) st0 Hlag Hfuel)
    as (k & Hk & Hmiss & Hend).
  { pose proof (spare_cycles_beyond timeout).
    change (now (world st0)) with (now (world st)). lia. }
  change (prompts st0) with (prompts st) in Hmiss, Hend.
  assert (Hbound : now (world (cycles (S k) st0)) - now (world st)
                   <= Z.max 0 timeout + 1000
                      + lag (world st) (naps (world st) + k)%nat).
  { rewrite cycles_end, cycle_now, cycles_lag, cycles_naps.
    change (lag (world st0)) with (lag (world st)).
    change (naps (world st0)) with (naps (world st)).
    assert (now (world (cycles k st0)) <= now (world st) + Z.max 0 timeout);
      [|lia].
    destruct k as [|k].
    - change (now (world (cycles 0 st0))) with (now (world st)). lia.
    - destruct (Hmiss k ltac:(lia)) as [_ Hin]. lia. }
  split.
  - exists k. split; [exact Hk|]. split; [|split; [exact Hbound|]].
    + intros j Hj. destruct (Hmiss j Hj) as [Hnone Hin].
      split; [now apply first_prompt_none | exact Hin].
    + destruct Hend as [(p & Hp & Hrun)|(Hnone & Hlate & Hrun)].
      * left.
        destruct (first_prompt_split _ _ _ Hp) as (l1 & l2 & Hl & Hm & Hh).
        exists l1, p, l2. now rewrite wakeup_unfold.
      * right. split; [now apply first_prompt_none|].
        split; [exact Hlate | now rewrite wakeup_unfold].
  - intros Hnever. exists k. split; [exact Hk|]. split; [|exact Hbound].
    destruct Hend as [(p & Hp & Hrun)|(Hnone & Hlate & Hrun)].
    + apply first_prompt_some in Hp as [Hin Hhit].
      rewrite (Hnever k p Hin) in Hhit. discriminate Hhit.
    + now rewrite wakeup_unfold.
Qed.

Lemma wakeup_spec_witness :
  exists k : nat,
    (k <= spare_cycles 10000)%nat
    /\ _wakeup 20 10000 (online ["S>"] silence)
       = (Raise InstrumentTimeoutException,
          cycles (S k) (set_promptbuf "" (online ["S>"] silence)))
    /\ now (world (cycles (S k) (set_promptbuf "" (online ["S>"] silence))))
       - now (world (online ["S>"] silence))
       <= Z.max 0 10000 + 1000
          + lag (world (online ["S>"] silence))
              (naps (world (online ["S>"] silence)) + k)%nat.
Proof.
  apply (proj2 (proj2 (wakeup_spec 10000 (online ["S>"] silence) 20
                         ltac:(intros j; cbn; lia)
                         ltac:(vm_compute; lia)))).
  intros j q [<-|[]]. now rewrite silent_cycles.
Defined.

(** C3 as stated fails on its bound of [timeout + 1s]: a device that
    stays silent never makes the prompt buffer end with the configured
    prompt "S>", and the call raises the timeout error after one wake
    cycle, 1.001 s after it began in an environment whose sleeps overrun
    by a millisecond; that is later than [timeout + 1s] for the timeout 0,
    and for the timeout of -5 s, where [timeout + 1s] lies before the
    call. *)
Lemma wakeup_bound_counterexample :
  (forall k q,
     In q (prompts (online ["S>"] silence)) ->
     endswith
       (_promptbuf (cycles k (set_promptbuf "" (online ["S>"] silence)))) q
     = false)
  /\ _wakeup 5 0 (online ["S>"] silence)
     = (Raise InstrumentTimeoutException,
        cycles 1 (set_promptbuf "" (online ["S>"] silence)))
  /\ now (world (cycles 1 (set_promptbuf "" (online ["S>"] silence))))
     - now (world (online ["S>"] silence)) > 0 + 1000
  /\ _wakeup 5 (-5000) (online ["S>"] silence)
     = (Raise InstrumentTimeoutException,
        cycles 1 (set_promptbuf "" (online ["S>"] silence)))
  /\ now (world (cycles 1 (set_promptbuf "" (online ["S>"] silence))))
     - now (world (online ["S>"] silence)) > -5000 + 1000.
Proof.
  split.
  - intros k q [<-|[]]. now rewrite silent_cycles.
  - split; [vm_compute; reflexivity|].
    split; [vm_compute; reflexivity|].
    split; [vm_compute; reflexivity|].
    vm_compute; reflexivity.
Qed.

(** ** _do_cmd_no_resp *)

(** C7 (_do_cmd_no_resp): for a registered command, once the wakeup has
    returned the prompt [p], the call empties the line buffer only, sends
    the built string and returns OK; the prompt buffer still holds what the
    wakeup left there, text ending with [p], where the claim has it
    cleared before the send. *)
Theorem do_cmd_no_resp_keeps_promptbuf (fuel : nat) (cmd : string)
    (args : list value) (kw : kwargs) (st st1 : Protocol) (b : builder)
    (p : string) (c : LoggerClient) :
  _build_handlers st !! cmd = Some b ->
  _wakeup fuel (get_timeout kw) st = (Return p, st1) ->
  _logger_client st1 = Some c ->
  exists st2,
    _do_cmd_no_resp fuel cmd args kw st = (Return OK, st2)
    /\ _linebuf st2 = ""
    /\ _promptbuf st2 = _promptbuf st1
    /\ endswith (_promptbuf st2) p = true
    /\ wire (world st2) = (wire (world st1) ++ [b cmd args])%list.
Proof.
  intros Hb Hw Hc.
  destruct (wakeup_result _ _ _ _ _ Hw) as [_ Hend].
  unfold _do_cmd_no_resp. rewrite Hb.
  rewrite (bind_return _ _ _ _ _ Hw).
  rewrite (bind_return _ _ st1 (set_linebuf "" st1) tt) by reflexivity.
  unfold logger_client_send, bind.
  change (_logger_client (set_linebuf "" st1)) with (_logger_client st1).
  rewrite Hc. eexists. split; [reflexivity|]. repeat split. exact Hend.
Qed.

Lemma do_cmd_no_resp_keeps_promptbuf_witness :
  exists st2,
    _do_cmd_no_resp 5 "go" [] (mkKwargs None None)
      (snd (_add_build_handler "go" simple_builder
              (online ["S>"] prompt_feed)))
    = (Return OK, st2)
    /\ _linebuf st2 = ""
    /\ _promptbuf st2 = "ready S>"
    /\ endswith (_promptbuf st2) "S>" = true
    /\ wire (world st2) = [simple_builder "go" []].
Proof.
  apply (do_cmd_no_resp_keeps_promptbuf 5 "go" [] (mkKwargs None None)
           (snd (_add_build_handler "go" simple_builder
                   (online ["S>"] prompt_feed)))
           (snd (_wakeup 5 10000
                   (snd (_add_build_handler "go" simple_builder
                           (online ["S>"] prompt_feed)))))
           simple_builder "S>"
           (mkLoggerClient (VStr "localhost") (VInt 8888) true)).
  - vm_compute. reflexivity.
  - vm_compute. reflexivity.
  - vm_compute. reflexivity.
Defined.

(** The sibling [_do_cmd_resp] does clear both buffers before the send. *)
Lemma do_cmd_resp_clears_both :
  let r := _do_cmd_resp 5 "go" [] (mkKwargs (Some 300) None)
             (snd (_add_build_handler "go" simple_builder
                     (online ["S>"] prompt_feed))) in
  _promptbuf (snd r) = "" /\ _linebuf (snd r) = "".
Proof. vm_compute. split; reflexivity. Qed.

(** ** The empty prompt *)

(** C10 (empty prompt): every buffer ends with the empty string, so
    [_get_response] with the empty string as expected prompt returns the
    pair of the empty string and the current line buffer at once, without
    a sleep and without a timeout error; and when the configured prompts
    include the empty string, [_wakeup] returns at its first check, after
    one wake cycle, with the first configured prompt that ends the
    buffer. *)
Theorem empty_prompt_matches_at_once (fuel : nat) (timeout : Z)
    (st : Protocol) :
  _get_response (S fuel) timeout (Some "") st = (Return ("", _linebuf st), st)
  /\ (In "" (prompts st) ->
      exists item,
        _wakeup (S fuel) timeout st =
          (Return item, cycle (set_promptbuf "" st))
        /\ first_prompt (prompts st)
             (_promptbuf (cycle (set_promptbuf "" st))) = Some item).
Proof.
  split.
  - reflexivity.
  - intros Hin.
    destruct (first_prompt_with_empty (prompts st)
                (_promptbuf (cycle (set_promptbuf "" st))) Hin)
      as [item Hitem].
    exists item. split; [|exact Hitem].
    rewrite wakeup_unfold, wakeup_loop_step.
    change (prompts (set_promptbuf "" st)) with (prompts st).
    now rewrite Hitem.
Qed.

Lemma empty_prompt_matches_at_once_witness :
  exists item,
    _wakeup 1 0 (online ["S>"; ""] silence) =
      (Return item, cycle (set_promptbuf "" (online ["S>"; ""] silence)))
    /\ first_prompt (prompts (online ["S>"; ""] silence))
         (_promptbuf (cycle (set_promptbuf "" (online ["S>"; ""] silence))))
       = Some item.
Proof.
  apply (proj2 (empty_prompt_matches_at_once 0 0
                  (online ["S>"; ""] silence))).
  simpl. tauto.
Defined.

(** * Further properties *)

(** ** Strings *)

Lemma string_app_assoc (a b c : string) : (a ++ b) ++ c = a ++ (b ++ c).
Proof.
  induction a as [|x a IH]; [reflexivity|].
  change (String x ((a ++ b) ++ c) = String x (a ++ (b ++ c))).
  now rewrite IH.
Qed.

Lemma string_app_nil_r (a : string) : a ++ "" = a.
Proof.
  induction a as [|x a IH]; [reflexivity|].
  change (String x (a ++ "") = String x a). now rewrite IH.
Qed.

Lemma list_ascii_of_string_app (a b : string) :
  list_ascii_of_string (a ++ b)
  = (list_ascii_of_string a ++ list_ascii_of_string b)%list.
Proof.
  induction a as [|x a IH]; [reflexivity|].
  change (x :: list_ascii_of_string (a ++ b)
          = x :: (list_ascii_of_string a ++ list_ascii_of_string b)%list).
  now rewrite IH.
Qed.

Lemma string_of_list_ascii_app (a b : list ascii) :
  string_of_list_ascii (a ++ b)%list
  = string_of_list_ascii a ++ string_of_list_ascii b.
Proof.
  induction a as [|x a IH]; [reflexivity|].
  change (String x (string_of_list_ascii (a ++ b)%list)
          = String x (string_of_list_ascii a ++ string_of_list_ascii b)).
  now rewrite IH.
Qed.

Lemma starts_app (p q : list ascii) : starts p (p ++ q)%list = true.
Proof.
  induction p as [|x p IH]; simpl; [reflexivity|].
  now rewrite Ascii.eqb_refl.
Qed.

Lemma starts_inv (p : list ascii) :
  forall s, starts p s = true -> exists q, s = (p ++ q)%list.
Proof.
  induction p as [|x p IH]; intros s H.
  - now exists s.
  - destruct s as [|y s]; simpl in H; [discriminate|].
    apply andb_prop in H as [Hxy Hps]. apply Ascii.eqb_eq in Hxy. subst y.
    destruct (IH s Hps) as [q ->]. now exists q.
Qed.

Lemma endswith_app (a b : string) : endswith (a ++ b) b = true.
Proof.
  unfold endswith. rewrite list_ascii_of_string_app, rev_app_distr.
  apply starts_app.
Qed.

Lemma endswith_inv (s t : string) :
  endswith s t = true -> exists pre, s = pre ++ t.
Proof.
  unfold endswith. intros H. apply starts_inv in H as [q Hq].
  exists (string_of_list_ascii (rev q)).
  rewrite <- (string_of_list_ascii_of_string s),
    <- (string_of_list_ascii_of_string t) at 1.
  rewrite <- string_of_list_ascii_app. f_equal.
  rewrite <- (rev_involutive (list_ascii_of_string s)), Hq, rev_app_distr.
  now rewrite rev_involutive.
Qed.

(** ** Invariants of the polling loops *)

Lemma cycle_as_sleep (st : Protocol) : cycle st = snd (sleep 1000 st).
Proof. reflexivity. Qed.

Lemma scan_prompts_returns (prompt_list : list string) :
  forall st, exists r st',
    scan_prompts prompt_list st = (Return r, st').
Proof.
  induction prompt_list as [|item rest IH]; intros st.
  - now exists None, st.
  - cbn [scan_prompts]. destruct (endswith (_promptbuf st) item).
    + now eexists _, _.
    + unfold bind. cbn [sleep]. apply IH.
Qed.

(** One unfolding of the response loop. *)
Lemma get_response_loop_step (fuel : nat) (prompt_list : list string)
    (deadline : Z) (st : Protocol) :
  _get_response_loop (S fuel) prompt_list deadline st =
    match scan_prompts prompt_list st with
    | (Return (Some r), st1) => (Return r, st1)
    | (Return None, st1) =>
        if now (world (after_pass prompt_list st1)) >? deadline
        then (Raise InstrumentTimeoutException, after_pass prompt_list st1)
        else _get_response_loop fuel prompt_list deadline
               (after_pass prompt_list st1)
    | (Raise e, st1) => (Raise e, st1)
    | (Diverge, st1) => (Diverge, st1)
    end.
Proof.
  cbn [_get_response_loop]. unfold bind.
  destruct (scan_prompts prompt_list st) as [[[r|]|e|] st1];
    try reflexivity.
  unfold time, raise, after_pass.
  destruct prompt_list as [|item rest].
  - change (spin st1) with (Return (A := unit) tt, snd (spin st1)).
    cbn beta iota. cbn [snd].
    now destruct (now (world (snd (spin st1))) >? deadline).
  - unfold ret. now destruct (now (world st1) >? deadline).
Qed.

Section Preservation.

Variable P : Protocol -> Prop.
Hypothesis P_got_data : forall d st, P st -> P (_got_data d st).
Hypothesis P_tick :
  forall ms st, P st -> P (set_world (tick ms (world st)) st).

Lemma sleep_preserves (ms : Z) (st : Protocol) :
  P st -> P (snd (sleep ms st)).
Proof.
  intros H. unfold sleep. cbn [snd].
  destruct (attached st); auto.
Qed.

Lemma wakeup_loop_preserves (fuel : nat) :
  forall deadline st, P st -> P (snd (_wakeup_loop fuel deadline st)).
Proof.
  induction fuel as [|fuel IH]; intros deadline st H.
  - exact H.
  - rewrite wakeup_loop_step.
    assert (Hc : P (cycle st))
      by (rewrite cycle_as_sleep; now apply sleep_preserves).
    destruct (first_prompt (prompts st) (_promptbuf (cycle st)));
      [exact Hc|].
    destruct (now (world (cycle st)) >? deadline); [exact Hc|].
    now apply IH.
Qed.

Lemma scan_prompts_preserves (prompt_list : list string) :
  forall st, P st -> P (snd (scan_prompts prompt_list st)).
Proof.
  induction prompt_list as [|item rest IH]; intros st H.
  - exact H.
  - cbn [scan_prompts]. destruct (endswith (_promptbuf st) item).
    + exact H.
    + unfold bind. cbn [sleep].
      apply (IH (snd (sleep 100 st))). now apply sleep_preserves.
Qed.

Lemma get_response_loop_preserves (fuel : nat) :
  forall prompt_list deadline st,
    P st -> P (snd (_get_response_loop fuel prompt_list deadline st)).
Proof.
  induction fuel as [|fuel IH]; intros prompt_list deadline st H.
  - exact H.
  - rewrite get_response_loop_step.
    pose proof (scan_prompts_preserves prompt_list st H) as Hs.
    destruct (scan_prompts prompt_list st) as [[[r|]|e|] st1];
      cbn [snd] in Hs |- *; try exact Hs.
    assert (Ha : P (after_pass prompt_list st1)).
    { unfold after_pass, spin. destruct prompt_list; [|exact Hs].
      now apply sleep_preserves. }
    destruct (now (world (after_pass prompt_list st1)) >? deadline);
      [exact Ha|].
    now apply IH.
Qed.

Lemma get_response_preserves (fuel : nat) (timeout : Z)
    (expected_prompt : option string) (st : Protocol) :
  P st -> P (snd (_get_response fuel timeout expected_prompt st)).
Proof. intros H. now apply get_response_loop_preserves. Qed.

End Preservation.

(** ** The connection life cycle *)

Lemma bind_raise {A B : Type} (m : M A) (k : A -> M B) (st st' : Protocol)
    (e : exn) :
  m st = (Raise e, st') -> bind m k st = (Raise e, st').
Proof. intros H. unfold bind. now rewrite H. Qed.

Lemma bind_diverge {A B : Type} (m : M A) (k : A -> M B)
    (st st' : Protocol) :
  m st = (Diverge, st') -> bind m k st = (Diverge, st').
Proof. intros H. unfold bind. now rewrite H. Qed.

(** The instance a successful [connect] leaves behind. *)
Lemma connect_launches (st : Protocol) (lg : EthernetDeviceLogger)
    (c : LoggerClient) :
  _logger st = Some lg ->
  live_pid lg = None ->
  _logger_client st = Some c ->
  exists st',
    connect st = (Return None, st')
    /\ _logger st' =
         Some (mkEthernetDeviceLogger (device_addr lg) (device_port lg)
                 (logger_server_port lg) (write_delay lg)
                 (Some (spawn (world st))))
    /\ _logger_client st' =
         Some (mkLoggerClient (server_addr c) (server_port c) true)
    /\ spawn (world st') = Pos.succ (spawn (world st)).
Proof.
  intros Hlg Hpid Hc.
  set (p := spawn (world st)).
  set (lg' := mkEthernetDeviceLogger (device_addr lg) (device_port lg)
                (logger_server_port lg) (write_delay lg) (Some p)).
  set (st1 := snd (logger_launch_process st)).
  set (st2 := set_logger_popen (Some p) st1).
  set (st3 := snd (sleep 200 st2)).
  set (st4 := snd (sleep 1000 st3)).
  assert (H1 : logger_launch_process st = (Return (Some p), st1)).
  { unfold st1, logger_launch_process. now rewrite Hlg. }
  assert (Hl1 : _logger st1 = Some lg' /\ _logger_client st1 = Some c
                /\ spawn (world st1) = Pos.succ p).
  { unfold st1, logger_launch_process. rewrite Hlg. simpl. now rewrite Hc. }
  destruct Hl1 as (Hl1 & Hc1 & Hs1).
  assert (Hl4 : _logger st4 = Some lg').
  { unfold st4, st3.
    apply (sleep_preserves (fun s => _logger s = Some lg')); auto.
    apply (sleep_preserves (fun s => _logger s = Some lg')); auto. }
  assert (Hc4 : _logger_client st4 = Some c).
  { unfold st4, st3.
    apply (sleep_preserves (fun s => _logger_client s = Some c)); auto.
    apply (sleep_preserves (fun s => _logger_client s = Some c)); auto. }
  assert (Hs4 : spawn (world st4) = Pos.succ p).
  { unfold st4, st3.
    apply (sleep_preserves (fun s => spawn (world s) = Pos.succ p)); auto.
    apply (sleep_preserves (fun s => spawn (world s) = Pos.succ p)); auto. }
  exists (set_logger_client
            (Some (mkLoggerClient (server_addr c) (server_port c) true)) st4).
  split; [|split; [exact Hl4 | split; [reflexivity | exact Hs4]]].
  unfold connect.
  rewrite (bind_return _ _ st st None)
    by (unfold logger_get_pid; now rewrite Hlg, Hpid).
  rewrite (bind_return _ _ _ _ _ H1).
  rewrite (bind_return _ _ st1 st2 tt) by reflexivity.
  rewrite (bind_return _ _ st2 st3 tt) by reflexivity.
  rewrite (bind_return _ _ st3 st4 tt) by reflexivity.
  unfold attach, set_listening.
  rewrite (bind_return _ _ st4
             (set_logger_client
                (Some (mkLoggerClient (server_addr c) (server_port c) true))
                st4) OK).
  - reflexivity.
  - unfold bind. rewrite Hc4. reflexivity.
Qed.

(** X1 (configure, missing endpoint key): for the two ethernet methods a
    mapping that lacks one of the four endpoint keys makes [configure]
    raise [KeyError] for a missing key, and the instance is left exactly
    as it was: the keys are all read before any handle is assigned. *)
Theorem configure_missing_endpoint (config : gmap string value)
    (method : value) (st : Protocol) :
  config !! "method" = Some method ->
  method = InterfaceType.ETHERNET \/ method = InterfaceType.SLOW_ETHERNET ->
  (exists k, In k ["device_addr"; "device_port"; "server_addr";
                   "server_port"] /\ config !! k = None) ->
  exists k,
    In k ["device_addr"; "device_port"; "server_addr"; "server_port"]
    /\ config !! k = None
    /\ configure config st = (Raise (KeyError k), st).
Proof.
  intros Hm Hmethod (k0 & Hk0 & Hnone).
  assert (Hbuild : forall delay, exists k,
            In k ["device_addr"; "device_port"; "server_addr"; "server_port"]
            /\ config !! k = None
            /\ build_logger config delay st = (Raise (KeyError k), st)).
  { intros delay. unfold build_logger, bind, getitem.
    destruct (config !! "device_addr") as [da|] eqn:Eda;
      [|exists "device_addr"; simpl; auto].
    destruct (config !! "device_port") as [dp|] eqn:Edp;
      [|exists "device_port"; simpl; auto].
    destruct (config !! "server_addr") as [sa|] eqn:Esa;
      [|exists "server_addr"; simpl; auto].
    destruct (config !! "server_port") as [sp|] eqn:Esp;
      [|exists "server_port"; simpl; auto 6].
    exfalso. simpl in Hk0.
    destruct Hk0 as [<-|[<-|[<-|[<-|[]]]]]; congruence. }
  unfold configure.
  rewrite (bind_return _ _ st st method) by now apply getitem_some.
  destruct Hmethod as [-> | ->]; cbn [value_eqb InterfaceType.ETHERNET
    InterfaceType.SLOW_ETHERNET InterfaceType.SERIAL].
  - destruct (Hbuild None) as (k & Hin & Hk & Hb). exists k.
    split; [exact Hin|]. split; [exact Hk|].
    change (String.eqb "ethernet" "ethernet") with true. cbn iota.
    now rewrite (bind_raise _ _ _ _ _ Hb).
  - destruct (Hbuild (Some 100)) as (k & Hin & Hk & Hb). exists k.
    split; [exact Hin|]. split; [exact Hk|].
    change (String.eqb "slow_ethernet" "ethernet") with false.
    change (String.eqb "slow_ethernet" "slow_ethernet") with true.
    cbn iota.
    rewrite (bind_return _ _ st st tt) by reflexivity.
    now rewrite (bind_raise _ _ _ _ _ Hb).
Qed.

Lemma configure_missing_endpoint_witness :
  exists k,
    In k ["device_addr"; "device_port"; "server_addr"; "server_port"]
    /\ delete "server_addr" (endpoint "slow_ethernet") !! k = None
    /\ configure (delete "server_addr" (endpoint "slow_ethernet"))
         (pristine [] silence)
       = (Raise (KeyError k), pristine [] silence).
Proof.
  apply (configure_missing_endpoint
           (delete "server_addr" (endpoint "slow_ethernet"))
           InterfaceType.SLOW_ETHERNET (pristine [] silence)).
  - reflexivity.
  - now right.
  - exists "server_addr". split; [simpl; tauto | reflexivity].
Defined.

(** X2 (initialize after configure): on an instance without handles, a
    successful [configure] followed by [initialize] returns OK and gives
    back the instance as it was before the [configure]. *)
Theorem initialize_undoes_configure (config : gmap string value)
    (da dp sa sp : value) (st : Protocol) :
  _logger st = None ->
  _logger_client st = None ->
  config !! "method" = Some InterfaceType.SLOW_ETHERNET ->
  config !! "device_addr" = Some da ->
  config !! "device_port" = Some dp ->
  config !! "server_addr" = Some sa ->
  config !! "server_port" = Some sp ->
  fst (configure config st) = Return OK
  /\ initialize (snd (configure config st)) = (Return OK, st).
Proof.
  intros Hl Hc Hm Hda Hdp Hsa Hsp.
  rewrite (configure_slow_ethernet _ _ _ _ _ _ Hm Hda Hdp Hsa Hsp).
  split; [reflexivity|].
  destruct st as [l cl po e ps sa' lb pb bh rh pa w]. simpl in Hl, Hc.
  subst l cl. reflexivity.
Qed.

Lemma initialize_undoes_configure_witness :
  fst (configure (endpoint "slow_ethernet") (pristine ["S>"] silence))
    = Return OK
  /\ initialize (snd (configure (endpoint "slow_ethernet")
                        (pristine ["S>"] silence)))
     = (Return OK, pristine ["S>"] silence).
Proof.
  apply (initialize_undoes_configure (endpoint "slow_ethernet")
           (VStr "10.0.0.7") (VInt 4001) (VStr "localhost") (VInt 8888)
           (pristine ["S>"] silence)); reflexivity.
Defined.

(** X3 (connect after initialize): whatever the instance was, after
    [initialize] both [connect] and [disconnect] raise [AttributeError]
    on the missing handle and change nothing. *)
Theorem unconfigured_connect_disconnect (st : Protocol) :
  connect (snd (initialize st))
    = (Raise (AttributeError "get_pid"), snd (initialize st))
  /\ disconnect (snd (initialize st))
     = (Raise (AttributeError "stop_comms"), snd (initialize st)).
Proof. split; reflexivity. Qed.

(** X4 (second connect): once [connect] has launched the transport
    process, a second [connect] finds the live pid and raises the
    connection error without touching the instance: no second process is
    launched. *)
Theorem connect_refuses_second_launch (st : Protocol)
    (lg : EthernetDeviceLogger) (c : LoggerClient) :
  _logger st = Some lg ->
  live_pid lg = None ->
  _logger_client st = Some c ->
  exists st',
    connect st = (Return None, st')
    /\ connect st' = (Raise InstrumentConnectionException, st').
Proof.
  intros Hlg Hpid Hc.
  destruct (connect_launches st lg c Hlg Hpid Hc)
    as (st' & Hconn & Hl' & _ & _).
  exists st'. split; [exact Hconn|].
  now apply (connect_twice_raises st' _ (spawn (world st)) Hl').
Qed.

Lemma connect_refuses_second_launch_witness :
  exists st',
    connect (snd (configure (endpoint "slow_ethernet") (pristine [] silence)))
      = (Return None, st')
    /\ connect st' = (Raise InstrumentConnectionException, st').
Proof.
  apply (connect_refuses_second_launch
           (snd (configure (endpoint "slow_ethernet") (pristine [] silence)))
           (mkEthernetDeviceLogger (VStr "10.0.0.7") (VInt 4001) (VInt 8888)
              (Some 100) None)
           (mkLoggerClient (VStr "localhost") (VInt 8888) false));
    reflexivity.
Defined.

(** X5 (connect, disconnect, connect): after a successful [connect],
    [disconnect] returns OK, unregisters the arrival callback and stops the
    process, so that a further [connect] launches again, under the next
    pid. *)
Theorem connect_disconnect_connect (st : Protocol)
    (lg : EthernetDeviceLogger) (c : LoggerClient) :
  _logger st = Some lg ->
  live_pid lg = None ->
  _logger_client st = Some c ->
  exists st1 st2 st3 lg3,
    connect st = (Return None, st1)
    /\ disconnect st1 = (Return OK, st2)
    /\ attached st2 = false
    /\ logger_get_pid st2 = (Return None, st2)
    /\ connect st2 = (Return None, st3)
    /\ attached st3 = true
    /\ _logger st3 = Some lg3
    /\ live_pid lg3 = Some (Pos.succ (spawn (world st))).
Proof.
  intros Hlg Hpid Hc.
  destruct (connect_launches st lg c Hlg Hpid Hc)
    as (st1 & Hconn & Hl1 & Hc1 & Hs1).
  set (c2 := mkLoggerClient (server_addr c) (server_port c) false).
  set (lg2 := mkEthernetDeviceLogger (device_addr lg) (device_port lg)
                (logger_server_port lg) (write_delay lg) None).
  set (st2 := set_logger (Some lg2) (set_logger_client (Some c2) st1)).
  assert (Hdis : disconnect st1 = (Return OK, st2)).
  { unfold disconnect, detach, set_listening.
    rewrite (bind_return _ _ st1 (set_logger_client (Some c2) st1) OK)
      by (unfold bind; rewrite Hc1; reflexivity).
    unfold logger_stop, bind.
    change (_logger (set_logger_client (Some c2) st1)) with (_logger st1).
    rewrite Hl1. reflexivity. }
  destruct (connect_launches st2 lg2 c2 eq_refl eq_refl eq_refl)
    as (st3 & Hconn3 & Hl3 & Hc3 & _).
  exists st1, st2, st3. eexists.
  split; [exact Hconn|]. split; [exact Hdis|]. split; [reflexivity|].
  split; [reflexivity|]. split; [exact Hconn3|].
  split; [unfold attached; now rewrite Hc3|].
  split; [exact Hl3|].
  cbn [live_pid].
  change (spawn (world st2)) with (spawn (world st1)). now rewrite Hs1.
Qed.

Lemma connect_disconnect_connect_witness :
  exists st1 st2 st3 lg3,
    connect (snd (configure (endpoint "slow_ethernet") (pristine [] silence)))
      = (Return None, st1)
    /\ disconnect st1 = (Return OK, st2)
    /\ attached st2 = false
    /\ logger_get_pid st2 = (Return None, st2)
    /\ connect st2 = (Return None, st3)
    /\ attached st3 = true
    /\ _logger st3 = Some lg3
    /\ live_pid lg3 = Some 2%positive.
Proof.
  apply (connect_disconnect_connect
           (snd (configure (endpoint "slow_ethernet") (pristine [] silence)))
           (mkEthernetDeviceLogger (VStr "10.0.0.7") (VInt 4001) (VInt 8888)
              (Some 100) None)
           (mkLoggerClient (VStr "localhost") (VInt 8888) false));
    reflexivity.
Defined.

(** ** What the polling loops leave alone *)

Lemma wakeup_preserves (P : Protocol -> Prop)
    (P_got_data : forall d st, P st -> P (_got_data d st))
    (P_tick : forall ms st, P st -> P (set_world (tick ms (world st)) st))
    (fuel : nat) (timeout : Z) (st : Protocol) :
  P (set_promptbuf "" st) -> P (snd (_wakeup fuel timeout st)).
Proof.
  intros H. rewrite wakeup_unfold. now apply wakeup_loop_preserves.
Qed.

Lemma wakeup_keeps_wire (fuel : nat) (timeout : Z) (st : Protocol) :
  wire (world (snd (_wakeup fuel timeout st))) = wire (world st).
Proof.
  apply (wakeup_preserves (fun s => wire (world s) = wire (world st)));
    auto.
Qed.


Lemma get_response_keeps_wire (fuel : nat) (timeout : Z)
    (expected : option string) (st : Protocol) :
  wire (world (snd (_get_response fuel timeout expected st)))
  = wire (world st).
Proof.
  apply (get_response_preserves (fun s => wire (world s) = wire (world st)));
    auto.
Qed.

Lemma get_response_keeps_tables (fuel : nat) (timeout : Z)
    (expected : option string) (st : Protocol) :
  _response_handlers (snd (_get_response fuel timeout expected st))
  = _response_handlers st.
Proof.
  apply (get_response_preserves
           (fun s => _response_handlers s = _response_handlers st)); auto.
Qed.

Lemma aligned_got_data (d : string) (st : Protocol) :
  aligned st -> aligned (_got_data d st).
Proof.
  intros [pre H]. exists pre. unfold _got_data. cbn [_linebuf _promptbuf
    set_promptbuf set_linebuf]. now rewrite H, string_app_assoc.
Qed.




(** X6 (_wakeup result): a prompt returned by [_wakeup] is one of the
    configured prompts and the prompt buffer left behind ends with it; the
    call transmits nothing and leaves the prompt buffer as the end of the
    line buffer. *)
Theorem wakeup_returns_configured_prompt (fuel : nat) (timeout : Z)
    (st st' : Protocol) (p : string) :
  _wakeup fuel timeout st = (Return p, st') ->
  In p (prompts st)
  /\ (exists pre, _promptbuf st' = pre ++ p)
  /\ aligned st'
  /\ wire (world st') = wire (world st).
Proof.
  intros H. destruct (wakeup_result _ _ _ _ _ H) as [Hin Hend].
  split; [exact Hin|]. split; [now apply endswith_inv|].
  pose proof (wakeup_preserves aligned aligned_got_data
                (fun _ _ H => H) fuel timeout st) as Hal.
  pose proof (wakeup_keeps_wire fuel timeout st) as Hw.
  rewrite H in Hal, Hw. cbn [snd] in Hal, Hw.
  split; [|exact Hw].
  apply Hal. exists (_linebuf st). cbn [_linebuf _promptbuf set_promptbuf].
  now rewrite string_app_nil_r.
Qed.

Lemma wakeup_returns_configured_prompt_witness :
  In "S>" (prompts (online ["S>"] prompt_feed))
  /\ (exists pre,
        _promptbuf (snd (_wakeup 5 10000 (online ["S>"] prompt_feed)))
        = pre ++ "S>")
  /\ aligned (snd (_wakeup 5 10000 (online ["S>"] prompt_feed)))
  /\ wire (world (snd (_wakeup 5 10000 (online ["S>"] prompt_feed))))
     = wire (world (online ["S>"] prompt_feed)).
Proof.
  apply (wakeup_returns_configured_prompt 5 10000
           (online ["S>"] prompt_feed)
           (snd (_wakeup 5 10000 (online ["S>"] prompt_feed))) "S>").
  vm_compute. reflexivity.
Defined.

(** X7 (failed wakeup): when the wakeup of a registered command raises,
    [_do_cmd_resp] and [_do_cmd_no_resp] raise the same exception from the
    same instance, and nothing has been transmitted. *)
Theorem do_cmd_wakeup_failure (fuel : nat) (cmd : string)
    (args : list value) (kw : kwargs) (st st1 : Protocol) (b : builder)
    (e : exn) :
  _build_handlers st !! cmd = Some b ->
  _wakeup fuel (get_timeout kw) st = (Raise e, st1) ->
  _do_cmd_resp fuel cmd args kw st = (Raise e, st1)
  /\ _do_cmd_no_resp fuel cmd args kw st = (Raise e, st1)
  /\ wire (world st1) = wire (world st).
Proof.
  intros Hb Hw. unfold _do_cmd_resp, _do_cmd_no_resp. rewrite Hb.
  rewrite !(bind_raise _ _ _ _ _ Hw).
  repeat split.
  pose proof (wakeup_keeps_wire fuel (get_timeout kw) st) as H.
  now rewrite Hw in H.
Qed.

Lemma do_cmd_wakeup_failure_witness :
  _do_cmd_resp 20 "go" [] (mkKwargs (Some 2000) None)
    (snd (_add_build_handler "go" simple_builder (online ["S>"] silence)))
  = (Raise InstrumentTimeoutException,
     snd (_wakeup 20 2000
            (snd (_add_build_handler "go" simple_builder
                    (online ["S>"] silence)))))
  /\ _do_cmd_no_resp 20 "go" [] (mkKwargs (Some 2000) None)
       (snd (_add_build_handler "go" simple_builder (online ["S>"] silence)))
     = (Raise InstrumentTimeoutException,
        snd (_wakeup 20 2000
               (snd (_add_build_handler "go" simple_builder
                       (online ["S>"] silence)))))
  /\ wire (world (snd (_wakeup 20 2000
                         (snd (_add_build_handler "go" simple_builder
                                 (online ["S>"] silence))))))
     = wire (world (snd (_add_build_handler "go" simple_builder
                           (online ["S>"] silence)))).
Proof.
  apply (do_cmd_wakeup_failure 20 "go" [] (mkKwargs (Some 2000) None)
           (snd (_add_build_handler "go" simple_builder
                   (online ["S>"] silence)))
           (snd (_wakeup 20 2000
                   (snd (_add_build_handler "go" simple_builder
                           (online ["S>"] silence)))))
           simple_builder InstrumentTimeoutException).
  - vm_compute. reflexivity.
  - vm_compute. reflexivity.
Defined.

(** X8 (one transmission): for a registered command, whatever the
    outcome, [_do_cmd_resp] has transmitted either nothing or exactly the
    string its builder made, once; when it returns, it has transmitted
    it. *)
Theorem do_cmd_resp_sends_at_most_once (fuel : nat) (cmd : string)
    (args : list value) (kw : kwargs) (st : Protocol) (b : builder) :
  _build_handlers st !! cmd = Some b ->
  (wire (world (snd (_do_cmd_resp fuel cmd args kw st))) = wire (world st)
   \/ wire (world (snd (_do_cmd_resp fuel cmd args kw st)))
      = (wire (world st) ++ [b cmd args])%list)
  /\ (forall v, fst (_do_cmd_resp fuel cmd args kw st) = Return v ->
        wire (world (snd (_do_cmd_resp fuel cmd args kw st)))
        = (wire (world st) ++ [b cmd args])%list).
Proof.
  intros Hb. unfold _do_cmd_resp. rewrite Hb.
  pose proof (wakeup_keeps_wire fuel (get_timeout kw) st) as Hw.
  destruct (_wakeup fuel (get_timeout kw) st) as [[p|e|] st1] eqn:Ew;
    cbn [snd] in Hw.
  2:{ rewrite (bind_raise _ _ _ _ _ Ew). cbn [fst snd].
      split; [now left | discriminate]. }
  2:{ rewrite (bind_diverge _ _ _ _ Ew). cbn [fst snd].
      split; [now left | discriminate]. }
  rewrite (bind_return _ _ _ _ _ Ew).
  set (st2 := set_promptbuf "" (set_linebuf "" st1)).
  rewrite (bind_return _ _ st1 st2 tt) by reflexivity.
  destruct (_logger_client st1) as [c|] eqn:Ec.
  2:{ rewrite (bind_raise _ _ st2 st2 (AttributeError "send"))
        by (unfold logger_client_send;
            change (_logger_client st2) with (_logger_client st1);
            now rewrite Ec).
      cbn [fst snd]. change (wire (world st2)) with (wire (world st1)).
      split; [now left | discriminate]. }
  set (st3 := set_world
                (mkWorld (now (world st2)) (naps (world st2))
                   (feed (world st2)) (wire (world st2) ++ [b cmd args])
                   (spawn (world st2)) (lag (world st2))) st2).
  rewrite (bind_return _ _ st2 st3 tt)
    by (unfold logger_client_send;
        change (_logger_client st2) with (_logger_client st1);
        now rewrite Ec).
  assert (H3 : wire (world st3) = (wire (world st) ++ [b cmd args])%list).
  { unfold st3. cbn [wire world set_world].
    change (wire (world st2)) with (wire (world st1)). now rewrite Hw. }
  pose proof (get_response_keeps_wire fuel (get_timeout kw)
                (kw_expected_prompt kw) st3) as Hg.
  rewrite H3 in Hg.
  destruct (_get_response fuel (get_timeout kw) (kw_expected_prompt kw) st3)
    as [[[prompt result]|e|] st4] eqn:Eg; cbn [snd] in Hg.
  - rewrite (bind_return _ _ _ _ _ Eg).
    destruct (_response_handlers st4 !! cmd); cbn [fst snd]; auto.
  - rewrite (bind_raise _ _ _ _ _ Eg). cbn [fst snd].
    split; [now right | discriminate].
  - rewrite (bind_diverge _ _ _ _ Eg). cbn [fst snd].
    split; [now right | discriminate].
Qed.

Lemma do_cmd_resp_sends_at_most_once_witness :
  wire (world (snd (_do_cmd_resp 20 "go" [] (mkKwargs (Some 2000) None)
                      (snd (_add_build_handler "go" simple_builder
                              (online ["S>"] reply_feed))))))
  = [simple_builder "go" []].
Proof.
  apply (proj2 (do_cmd_resp_sends_at_most_once 20 "go" []
                  (mkKwargs (Some 2000) None)
                  (snd (_add_build_handler "go" simple_builder
                          (online ["S>"] reply_feed)))
                  simple_builder ltac:(vm_compute; reflexivity))
           VNone).
  vm_compute. reflexivity.
Defined.




(** ** _get_response on one expected prompt *)

Lemma poll_now (st : Protocol) :
  now (world (poll st))
  = now (world st) + 100 + lag (world st) (naps (world st)).
Proof. unfold poll, sleep. simpl. now destruct (attached st). Qed.

Lemma poll_naps (st : Protocol) :
  naps (world (poll st)) = S (naps (world st)).
Proof. unfold poll, sleep. simpl. now destruct (attached st). Qed.

Lemma poll_lag (st : Protocol) : lag (world (poll st)) = lag (world st).
Proof. unfold poll, sleep. simpl. now destruct (attached st). Qed.

Lemma polls_end (k : nat) :
  forall st, polls (S k) st = poll (polls k st).
Proof.
  induction k as [|k IH]; intros st; [reflexivity|].
  change (polls (S (S k)) st) with (polls (S k) (poll st)).
  now rewrite IH.
Qed.

Lemma polls_lag (k : nat) :
  forall st, lag (world (polls k st)) = lag (world st).
Proof.
  induction k as [|k IH]; intros st; [reflexivity|].
  change (polls (S k) st) with (polls k (poll st)).
  now rewrite IH, poll_lag.
Qed.

Lemma polls_naps (k : nat) :
  forall st, naps (world (polls k st)) = (naps (world st) + k)%nat.
Proof.
  induction k as [|k IH]; intros st.
  - simpl. lia.
  - change (polls (S k) st) with (polls k (poll st)).
    rewrite IH, poll_naps. lia.
Qed.

(** One unfolding of the response loop on a single prompt. *)
Lemma get_response_single_step (fuel : nat) (e : string) (deadline : Z)
    (st : Protocol) :
  _get_response_loop (S fuel) [e] deadline st =
    if endswith (_promptbuf st) e
    then (Return (e, _linebuf st), st)
    else if now (world (poll st)) >? deadline
         then (Raise InstrumentTimeoutException, poll st)
         else _get_response_loop fuel [e] deadline (poll st).
Proof.
  rewrite get_response_loop_step. cbn [scan_prompts].
  destruct (endswith (_promptbuf st) e); [reflexivity|].
  unfold bind.
  change (sleep 100 st) with (Return (A := unit) tt, poll st).
  reflexivity.
Qed.

(** The run of the response loop on a single prompt when the overruns are
    not negative: it ends within [n + 1] tests, [n] the whole tenths of a
    second left to the deadline. *)
Lemma get_response_single_run (n : nat) :
  forall (fuel : nat) (e : string) (deadline : Z) (st : Protocol),
    (forall j, 0 <= lag (world st) j) ->
    (n < fuel)%nat ->
    deadline < now (world st) + 100 * Z.of_nat (S n) ->
    exists k,
      (k <= n)%nat
      /\ (forall j, (j < k)%nat ->
            endswith (_promptbuf (polls j st)) e = false
            /\ now (world (polls (S j) st)) <= deadline)
      /\ ((endswith (_promptbuf (polls k st)) e = true
           /\ _get_response_loop fuel [e] deadline st
              = (Return (e, _linebuf (polls k st)), polls k st))
          \/ (endswith (_promptbuf (polls k st)) e = false
              /\ deadline < now (world (polls (S k) st))
              /\ _get_response_loop fuel [e] deadline st
                 = (Raise InstrumentTimeoutException, polls (S k) st))).
Proof.
  induction n as [|n IH]; intros fuel e deadline st Hlag Hfuel Hdl;
    (destruct fuel as [|fuel]; [lia|]); rewrite get_response_single_step;
    pose proof (poll_now st) as Hnow;
    pose proof (Hlag (naps (world st))) as Hl;
    destruct (endswith (_promptbuf st) e) eqn:E.
  - exists 0%nat. split; [lia|]. split; [intros j Hj; lia|].
    left. split; [exact E | reflexivity].
  - exists 0%nat. split; [lia|]. split; [intros j Hj; lia|].
    right. rewrite gtb_true by lia.
    split; [exact E|]. split; [|reflexivity].
    change (polls 1 st) with (poll st). lia.
  - exists 0%nat. split; [lia|]. split; [intros j Hj; lia|].
    left. split; [exact E | reflexivity].
  - destruct (gtb_cases (now (world (poll st))) deadline) as [[T Ht]|[T Ht]];
      rewrite T.
    + exists 0%nat. split; [lia|]. split; [intros j Hj; lia|].
      right. split; [exact E|]. split; [exact Ht | reflexivity].
    + destruct (IH fuel e deadline (poll st)) as (k & Hk & Hmiss & Hend).
      * intros j. rewrite poll_lag. apply Hlag.
      * lia.
      * lia.
      * exists (S k). split; [lia|]. split; [|exact Hend].
        intros [|j] Hj.
        -- split; [exact E | exact Ht].
        -- apply (Hmiss j). lia.
Qed.

Lemma spare_polls_beyond (timeout : Z) :
  timeout < 100 * Z.of_nat (S (spare_polls timeout)).
Proof.
  unfold spare_polls.
  pose proof (Z.mul_succ_div_gt timeout 100 ltac:(lia)). lia.
Qed.

Lemma get_response_unfold (fuel : nat) (timeout : Z)
    (expected : option string) (st : Protocol) :
  _get_response fuel timeout expected st =
    _get_response_loop fuel
      match expected with
      | None => prompts st
      | Some p => [p]
      end (now (world st) + timeout) st.
Proof. reflexivity. Qed.

(** X10 (_get_response, one expected prompt): the loop tests the prompt
    buffer before each tenth-of-a-second sleep and reads the clock after
    it.  When no sleep ends early (the overruns [lag] are not negative)
    and the fuel covers the [n = spare_polls timeout] whole tenths of the
    timeout, the call makes [k + 1] tests for some [k <= n], each of the
    first [k] a miss followed by a sleep that ended within the timeout;
    the last test either hits, and the call returns the expected prompt
    with the line buffer of that moment after exactly [k] sleeps, or
    misses and the sleep after it ends past the timeout, and the call
    raises the timeout error without testing what that sleep brought, no
    later than [max 0 timeout], a tenth of a second and the overrun of
    that sleep after it began. *)
Theorem get_response_expected_spec (timeout : Z) (e : string)
    (st : Protocol) (fuel : nat) :
  (forall j, 0 <= lag (world st) j) ->
  (spare_polls timeout < fuel)%nat ->
  exists k : nat,
    (k <= spare_polls timeout)%nat
    /\ (forall j, (j < k)%nat ->
          endswith (_promptbuf (polls j st)) e = false
          /\ now (world (polls (S j) st)) <= now (world st) + timeout)
    /\ ((endswith (_promptbuf (polls k st)) e = true
         /\ _get_response fuel timeout (Some e) st
            = (Return (e, _linebuf (polls k st)), polls k st))
        \/ (endswith (_promptbuf (polls k st)) e = false
            /\ now (world st) + timeout < now (world (polls (S k) st))
            /\ now (world (polls (S k) st)) - now (world st)
               <= Z.max 0 timeout + 100
                  + lag (world st) (naps (world st) + k)%nat
            /\ _get_response fuel timeout (Some e) st
               = (Raise InstrumentTimeoutException, polls (S k) st))).
Proof.
  intros Hlag Hfuel.
  destruct (get_response_single_run (spare_polls timeout) fuel e
              (now (world st) + timeout) st Hlag Hfuel)
    as (k & Hk & Hmiss & Hend).
  { pose proof (spare_polls_beyond timeout). lia. }
  exists k. split; [exact Hk|]. split; [exact Hmiss|].
  rewrite get_response_unfold.
  destruct Hend as [[Hhit Hrun]|(Hnone & Hlate & Hrun)].
  - left. split; [exact Hhit | exact Hrun].
  - right. split; [exact Hnone|]. split; [exact Hlate|].
    split; [|exact Hrun].
    rewrite polls_end, poll_now, polls_lag, polls_naps.
    assert (now (world (polls k st)) <= now (world st) + Z.max 0 timeout);
      [|lia].
    destruct k as [|k].
    + change (now (world (polls 0 st))) with (now (world st)). lia.
    + destruct (Hmiss k ltac:(lia)) as [_ Hin]. lia.
Qed.

Lemma get_response_expected_spec_witness :
  exists k : nat,
    (k <= spare_polls 100)%nat
    /\ (forall j, (j < k)%nat ->
          endswith (_promptbuf (polls j (online ["S>"] late_feed))) "S>"
          = false
          /\ now (world (polls (S j) (online ["S>"] late_feed)))
             <= now (world (online ["S>"] late_feed)) + 100)
    /\ ((endswith (_promptbuf (polls k (online ["S>"] late_feed))) "S>"
         = true
         /\ _get_response 5 100 (Some "S>") (online ["S>"] late_feed)
            = (Return ("S>", _linebuf (polls k (online ["S>"] late_feed))),
               polls k (online ["S>"] late_feed)))
        \/ (endswith (_promptbuf (polls k (online ["S>"] late_feed))) "S>"
            = false
            /\ now (world (online ["S>"] late_feed)) + 100
               < now (world (polls (S k) (online ["S>"] late_feed)))
            /\ now (world (polls (S k) (online ["S>"] late_feed)))
               - now (world (online ["S>"] late_feed))
               <= Z.max 0 100 + 100
                  + lag (world (online ["S>"] late_feed))
                      (naps (world (online ["S>"] late_feed)) + k)%nat
            /\ _get_response 5 100 (Some "S>") (online ["S>"] late_feed)
               = (Raise InstrumentTimeoutException,
                  polls (S k) (online ["S>"] late_feed)))).
Proof.
  apply (get_response_expected_spec 100 "S>" (online ["S>"] late_feed) 5).
  - intros j. cbn. lia.
  - vm_compute. lia.
Defined.

(** ** The parameter dict *)

Lemma get_resource_params_elem (n : string) (st : Protocol) :
  In n (get_resource_params st) <-> is_Some (_parameters st !! n).
Proof.
  unfold get_resource_params, _get_param_dict_names.
  rewrite <- list_elem_of_In, list_elem_of_fmap. split.
  - intros [[k s] [-> H]]. apply elem_of_map_to_list in H. now exists s.
  - intros [s H]. exists (n, s). split; [reflexivity|].
    now apply elem_of_map_to_list.
Qed.

(** X11 (get_resource_params): the list of parameter names has no
    repetition, and a name is in it exactly when [_get_param_dict] on that
    name does not fail with [KeyError]. *)
Theorem get_resource_params_spec (st : Protocol) :
  NoDup (get_resource_params st)
  /\ (forall n,
        In n (get_resource_params st)
        <-> _get_param_dict n st <> (Raise (KeyError n), st)).
Proof.
  split.
  - apply NoDup_fst_map_to_list.
  - intros n. rewrite get_resource_params_elem. unfold _get_param_dict.
    destruct (_parameters st !! n) as [[d|v]|] eqn:E.
    + split; [discriminate | eauto].
    + split; [discriminate | eauto].
    + split; [intros [s Hs]; discriminate | congruence].
Qed.

(** X12 (_add_param_dict): when the pattern compiles, [_add_param_dict]
    returns and stores under the name a descriptor with the compiled
    pattern: reading that name gives the value passed, formatting through
    that name applies the format function passed, the name is listed, and
    reading or formatting through any other name gives what it gave
    before.  When the pattern does not compile, the call raises
    [re.error] and the instance is as before: nothing is registered. *)
Theorem add_param_dict_round_trip
    (re_compile : string -> option (string -> option Match))
    (n pat : string) (getval : Match -> value)
    (format : value -> option string) (v : value) (st : Protocol) :
  (forall compiled,
     re_compile pat = Some compiled ->
     let st' := snd (_add_param_dict re_compile n pat getval format v st) in
     fst (_add_param_dict re_compile n pat getval format v st) = Return tt
     /\ _parameters st' !! n
        = Some (Descriptor
                  (mkParameterDictVal n pat compiled getval format v))
     /\ _get_param_dict n st' = (Return v, st')
     /\ (forall val,
           _format_param_dict n val st' = (Return (format val), st'))
     /\ In n (get_resource_params st')
     /\ (forall n', n' <> n ->
           fst (_get_param_dict n' st') = fst (_get_param_dict n' st)
           /\ forall val,
                fst (_format_param_dict n' val st')
                = fst (_format_param_dict n' val st)))
  /\ (re_compile pat = None ->
      _add_param_dict re_compile n pat getval format v st
      = (Raise re_error, st)).
Proof.
  split.
  - intros compiled Hc st'.
    assert (Hst : _add_param_dict re_compile n pat getval format v st
                  = (Return tt,
                     set_parameters
                       (<[n := Descriptor
                                 (mkParameterDictVal n pat compiled getval
                                    format v)]> (_parameters st)) st)).
    { unfold _add_param_dict, ParameterDictVal_new. now rewrite Hc. }
    unfold st'. rewrite Hst. cbn [fst snd].
    unfold _get_param_dict, _format_param_dict.
    cbn [_parameters set_parameters].
    rewrite lookup_insert_eq.
    split; [reflexivity|]. split; [reflexivity|]. split; [reflexivity|].
    split; [reflexivity|]. split.
    + apply get_resource_params_elem. cbn [_parameters set_parameters].
      rewrite lookup_insert_eq. eauto.
    + intros n' Hn. rewrite lookup_insert_ne by congruence.
      split; [|intros val]; now destruct (_parameters st !! n') as [[d|w]|].
  - intros Hc. unfold _add_param_dict, ParameterDictVal_new. now rewrite Hc.
Qed.

Lemma add_param_dict_round_trip_witness :
  _get_param_dict "flush_volume" (with_flush (pristine ["S>"] silence))
  = (Return (VInt 150), with_flush (pristine ["S>"] silence))
  /\ _add_param_dict literal_engine "depth" "(" (fun _ => VNone)
       _int_to_string VNone (pristine ["S>"] silence)
     = (Raise re_error, pristine ["S>"] silence).
Proof.
  split.
  - exact (proj1 (proj2 (proj2
             (proj1 (add_param_dict_round_trip literal_engine "flush_volume"
                       "Flush Volume: " (fun m => VStr (List.hd "" m))
                       _int_to_string (VInt 150) (pristine ["S>"] silence))
                (literal_compile "Flush Volume: ") eq_refl)))).
  - exact (proj2 (add_param_dict_round_trip literal_engine "depth" "("
                    (fun _ => VNone) _int_to_string VNone
                    (pristine ["S>"] silence)) eq_refl).
Defined.

(** *** _get_config_param_dict *)

Lemma config_items_plain (items : list (string * slot)) :
  forall (acc : gmap string value) (st : Protocol) (k : string) (v : value),
    (k, Plain v) ∈ items ->
    config_items items acc st = (Raise (AttributeError "value"), st).
Proof.
  induction items as [|[k0 [d0|v0]] rest IH]; intros acc st k v Hin.
  - now apply elem_of_nil in Hin.
  - apply elem_of_cons in Hin as [Heq|Hin]; [discriminate Heq|].
    cbn [config_items]. now apply (IH _ _ k v).
  - reflexivity.
Qed.

Lemma config_items_descriptors (items : list (string * slot)) :
  forall (acc : gmap string value) (st : Protocol),
    NoDup items.*1 ->
    (forall k s, (k, s) ∈ items -> exists d, s = Descriptor d) ->
    exists config,
      config_items items acc st = (Return config, st)
      /\ forall k v,
           config !! k = Some v <->
             (exists d, (k, Descriptor d) ∈ items /\ pvalue d = v)
             \/ ((k ∉ items.*1) /\ acc !! k = Some v).
Proof.
  induction items as [|[k0 s0] rest IH]; intros acc st Hnd Hall.
  - exists acc. split; [reflexivity|]. intros k v. split.
    + intros H. right. split; [apply not_elem_of_nil | exact H].
    + intros [(d & Hin & _)|[_ H]]; [now apply elem_of_nil in Hin | exact H].
  - destruct (Hall k0 s0 ltac:(left)) as [d0 ->].
    change (((k0, Descriptor d0) :: rest).*1) with (k0 :: rest.*1) in *.
    apply NoDup_cons in Hnd as [Hk0 Hnd].
    destruct (IH (<[k0 := pvalue d0]> acc) st Hnd) as (config & Hrun & Hchar).
    { intros k s Hin. apply (Hall k s). now right. }
    exists config. split; [exact Hrun|]. intros k v.
    rewrite Hchar. split.
    + intros [(d & Hin & Hv)|[Hk Hacc]].
      * left. exists d. split; [now right | exact Hv].
      * apply lookup_insert_Some in Hacc as [[<- <-]|[Hne Hacc]].
        -- left. exists d0. split; [left | reflexivity].
        -- right. split; [|exact Hacc].
           intros Hin. apply elem_of_cons in Hin as [->|Hin]; tauto.
    + intros [(d & Hin & Hv)|[Hk Hacc]].
      * apply elem_of_cons in Hin as [Heq|Hin].
        -- injection Heq as -> ->. right. split; [exact Hk0|].
           rewrite lookup_insert_eq. now rewrite Hv.
        -- left. eauto.
      * right. split.
        -- intros Hin. apply Hk. now right.
        -- rewrite lookup_insert_ne; [exact Hacc|].
           intros ->. apply Hk. left.
Qed.

(** X13 (_get_config_param_dict): when every slot of the parameter dict
    holds a descriptor, [_get_config_param_dict] returns a dict that has a
    name bound to a value exactly when [_get_param_dict] returns that value
    for the name; as soon as one slot holds a bare value, as
    [_set_param_dict] leaves it, the call raises [AttributeError].  In both
    cases the instance is unchanged. *)
Theorem get_config_param_dict_spec (st : Protocol) :
  ((forall n s, _parameters st !! n = Some s -> exists d, s = Descriptor d) ->
   exists config,
     _get_config_param_dict st = (Return config, st)
     /\ forall n v,
          config !! n = Some v <-> _get_param_dict n st = (Return v, st))
  /\ (forall n v,
        _parameters st !! n = Some (Plain v) ->
        _get_config_param_dict st = (Raise (AttributeError "value"), st)).
Proof.
  split.
  - intros Hall. unfold _get_config_param_dict.
    destruct (config_items_descriptors (map_to_list (_parameters st)) ∅ st)
      as (config & Hrun & Hchar).
    + apply NoDup_fst_map_to_list.
    + intros k s Hin. apply elem_of_map_to_list in Hin. eauto.
    + exists config. split; [exact Hrun|]. intros n v. rewrite Hchar.
      unfold _get_param_dict. split.
      * intros [(d & Hin & Hv)|[_ Hacc]].
        -- apply elem_of_map_to_list in Hin. rewrite Hin. now rewrite Hv.
        -- rewrite lookup_empty in Hacc. discriminate Hacc.
      * intros H. left.
        destruct (_parameters st !! n) as [[d|w]|] eqn:E;
          try discriminate H.
        exists d. split; [now apply elem_of_map_to_list | congruence].
  - intros n v H. unfold _get_config_param_dict.
    apply (config_items_plain _ _ _ n v). now apply elem_of_map_to_list.
Qed.

Lemma get_config_param_dict_spec_witness :
  exists config,
    _get_config_param_dict (with_flush (pristine ["S>"] silence))
    = (Return config, with_flush (pristine ["S>"] silence))
    /\ forall n v,
         config !! n = Some v
         <-> _get_param_dict n (with_flush (pristine ["S>"] silence))
             = (Return v, with_flush (pristine ["S>"] silence)).
Proof.
  apply (proj1 (get_config_param_dict_spec
                  (with_flush (pristine ["S>"] silence)))).
  intros n s H.
  change (_parameters (with_flush (pristine ["S>"] silence)))
    with (<["flush_volume" := Descriptor flush_volume]>
            (∅ : gmap string slot)) in H.
  apply lookup_insert_Some in H as [[_ <-]|[_ H]]; [eauto|].
  rewrite lookup_empty in H. discriminate H.
Defined.

(** *** _update_param_dict *)

Lemma update_items_no_match (input : string)
    (items : list (string * slot)) :
  forall st : Protocol,
    (forall k d, (k, Descriptor d) ∈ items -> regex d input = None) ->
    ((forall k s, (k, s) ∈ items -> exists d, s = Descriptor d) ->
     update_items input items st = (Return None, st))
    /\ (forall k v, (k, Plain v) ∈ items ->
        update_items input items st = (Raise (AttributeError "update"), st)).
Proof.
  induction items as [|[k0 [d0|v0]] rest IH]; intros st Hmiss.
  - split; [reflexivity|]. intros k v Hin. now apply elem_of_nil in Hin.
  - assert (Hstep : update_items input ((k0, Descriptor d0) :: rest) st
                    = update_items input rest st).
    { cbn [update_items]. unfold ParameterDictValM.update.
      now rewrite (Hmiss k0 d0 ltac:(left)). }
    rewrite Hstep.
    destruct (IH st) as [IH1 IH2].
    { intros k d Hin. apply (Hmiss k d). now right. }
    split.
    + intros Hall. apply IH1. intros k s Hin. apply (Hall k s). now right.
    + intros k v Hin. apply elem_of_cons in Hin as [Heq|Hin];
        [discriminate Heq|]. now apply (IH2 k v).
  - split.
    + intros Hall. destruct (Hall k0 (Plain v0) ltac:(left)) as [d Hd].
      discriminate Hd.
    + reflexivity.
Qed.

(** X14 (_update_param_dict, no match): when the input matches the pattern
    of no descriptor, [_update_param_dict] changes nothing; it returns
    [None] if every slot holds a descriptor, and raises [AttributeError] if
    some slot holds a bare value, as [_set_param_dict] leaves it. *)
Theorem update_param_dict_no_match (input : string) (st : Protocol) :
  (forall k d,
     _parameters st !! k = Some (Descriptor d) -> regex d input = None) ->
  ((forall k s, _parameters st !! k = Some s -> exists d, s = Descriptor d) ->
   _update_param_dict input st = (Return None, st))
  /\ (forall k v,
        _parameters st !! k = Some (Plain v) ->
        _update_param_dict input st = (Raise (AttributeError "update"), st)).
Proof.
  intros Hmiss. unfold _update_param_dict.
  destruct (update_items_no_match input (map_to_list (_parameters st)) st)
    as [H1 H2].
  { intros k d Hin. apply (Hmiss k d). now apply elem_of_map_to_list. }
  split.
  - intros Hall. apply H1. intros k s Hin. apply (Hall k s).
    now apply elem_of_map_to_list.
  - intros k v Hin. apply (H2 k v). now apply elem_of_map_to_list.
Qed.

Lemma update_param_dict_no_match_witness :
  _update_param_dict "S>" (with_flush (pristine ["S>"] silence))
  = (Return None, with_flush (pristine ["S>"] silence)).
Proof.
  apply (update_param_dict_no_match "S>"
           (with_flush (pristine ["S>"] silence))).
  - intros k d H.
    change (_parameters (with_flush (pristine ["S>"] silence)))
      with (<["flush_volume" := Descriptor flush_volume]>
              (∅ : gmap string slot)) in H.
    apply lookup_insert_Some in H as [[_ H]|[_ H]].
    + injection H as <-. reflexivity.
    + rewrite lookup_empty in H. discriminate H.
  - intros k s H.
    change (_parameters (with_flush (pristine ["S>"] silence)))
      with (<["flush_volume" := Descriptor flush_volume]>
              (∅ : gmap string slot)) in H.
    apply lookup_insert_Some in H as [[_ <-]|[_ H]]; [eauto|].
    rewrite lookup_empty in H. discriminate H.
Defined.

Lemma update_items_hit (input : string) (items : list (string * slot)) :
  forall (st st' : Protocol) (n : string),
    update_items input items st = (Return (Some n), st') ->
    n <> ""
    /\ exists k d m,
         (k, Descriptor d) ∈ items
         /\ regex d input = Some m
         /\ name d = n
         /\ _parameters st' !! k
            = Some (Descriptor
                      (ParameterDictValM.set_value (f_getval d m) d)).
Proof.
  induction items as [|[k0 [d0|v0]] rest IH]; intros st st' n H.
  - discriminate H.
  - cbn [update_items] in H. unfold ParameterDictValM.update in H.
    destruct (regex d0 input) as [m|] eqn:Em.
    + set (d' := ParameterDictValM.set_value (f_getval d0 m) d0) in *.
      set (st1 := set_parameters (<[k0 := Descriptor d']> (_parameters st))
                    st) in *.
      rewrite (bind_return _ _ st st1 tt) in H by reflexivity.
      destruct (String.eqb (name d0) "") eqn:En.
      * apply IH in H as (Hn & k & d & m' & Hin & Hm & Hname & Hlook).
        split; [exact Hn|]. exists k, d, m'. repeat split; auto.
        now right.
      * injection H as <- <-. split; [now apply String.eqb_neq|].
        exists k0, d0, m. repeat split; auto; [left|].
        unfold st1. cbn [_parameters set_parameters].
        now rewrite lookup_insert_eq.
    + apply IH in H as (Hn & k & d & m' & Hin & Hm & Hname & Hlook).
      split; [exact Hn|]. exists k, d, m'. repeat split; auto. now right.
  - discriminate H.
Qed.

(** X15 (_update_param_dict, a name returned): a name returned by
    [_update_param_dict] is not the empty string, and it is the name of a
    descriptor of the dict whose pattern matches the input and whose slot
    now holds that descriptor with the value its extraction function gives
    on the match. *)
Theorem update_param_dict_hit (input : string) (st st' : Protocol)
    (n : string) :
  _update_param_dict input st = (Return (Some n), st') ->
  n <> ""
  /\ exists k d m,
       _parameters st !! k = Some (Descriptor d)
       /\ regex d input = Some m
       /\ name d = n
       /\ _parameters st' !! k
          = Some (Descriptor (ParameterDictValM.set_value (f_getval d m) d)).
Proof.
  unfold _update_param_dict. intros H.
  apply update_items_hit in H as (Hn & k & d & m & Hin & Hm & Hname & Hlook).
  split; [exact Hn|]. exists k, d, m. repeat split; auto.
  now apply elem_of_map_to_list.
Qed.

Lemma update_param_dict_hit_witness :
  "flush_volume" <> ""
  /\ exists k d m,
       _parameters (with_flush (pristine ["S>"] silence)) !! k
       = Some (Descriptor d)
       /\ regex d "Flush Volume: 150mL" = Some m
       /\ name d = "flush_volume"
       /\ _parameters
            (snd (_update_param_dict "Flush Volume: 150mL"
                    (with_flush (pristine ["S>"] silence)))) !! k
          = Some (Descriptor (ParameterDictValM.set_value (f_getval d m) d)).
Proof.
  apply (update_param_dict_hit "Flush Volume: 150mL"
           (with_flush (pristine ["S>"] silence))
           (snd (_update_param_dict "Flush Volume: 150mL"
                   (with_flush (pristine ["S>"] silence))))
           "flush_volume").
  reflexivity.
Defined.

Lemma update_items_keeps (input : string) (items : list (string * slot)) :
  forall st : Protocol,
    (forall k s, (k, s) ∈ items -> is_Some (_parameters st !! k)) ->
    dom (_parameters (snd (update_items input items st)))
    = dom (_parameters st)
    /\ world (snd (update_items input items st)) = world st
    /\ _linebuf (snd (update_items input items st)) = _linebuf st
    /\ _promptbuf (snd (update_items input items st)) = _promptbuf st.
Proof.
  induction items as [|[k0 [d0|v0]] rest IH]; intros st Hdom.
  - repeat split.
  - assert (Hrest : forall k s, (k, s) ∈ rest -> is_Some (_parameters st !! k))
      by (intros k s Hin; apply (Hdom k s); now right).
    cbn [update_items]. unfold ParameterDictValM.update.
    destruct (regex d0 input) as [m|]; [|now apply IH].
    set (d' := ParameterDictValM.set_value (f_getval d0 m) d0).
    set (st1 := set_parameters (<[k0 := Descriptor d']> (_parameters st)) st).
    rewrite (bind_return _ _ st st1 tt) by reflexivity.
    assert (H1 : dom (_parameters st1) = dom (_parameters st)).
    { unfold st1. cbn [_parameters set_parameters].
      apply dom_insert_lookup_L. apply (Hdom k0 (Descriptor d0)). left. }
    destruct (String.eqb (name d0) "").
    + destruct (IH st1) as (Hd & Hw & Hl & Hp).
      { intros k s Hin. unfold st1. cbn [_parameters set_parameters].
        apply lookup_insert_is_Some.
        destruct (decide (k0 = k)); [now left | right].
        split; [assumption | now apply (Hrest k s)]. }
      rewrite Hd, Hw, Hl, Hp. repeat split. exact H1.
    + cbn [ret snd]. repeat split. exact H1.
  - repeat split.
Qed.

(** X16 (_update_param_dict, frame): whatever its outcome,
    [_update_param_dict] leaves the list of parameter names with the same
    members, transmits nothing, lets no time pass and leaves both buffers
    as they were. *)
Theorem update_param_dict_keeps_names (input : string) (st : Protocol) :
  (forall n,
     In n (get_resource_params (snd (_update_param_dict input st)))
     <-> In n (get_resource_params st))
  /\ world (snd (_update_param_dict input st)) = world st
  /\ _linebuf (snd (_update_param_dict input st)) = _linebuf st
  /\ _promptbuf (snd (_update_param_dict input st)) = _promptbuf st.
Proof.
  unfold _update_param_dict.
  destruct (update_items_keeps input (map_to_list (_parameters st)) st)
    as (Hd & Hw & Hl & Hp).
  { intros k s Hin. apply elem_of_map_to_list in Hin. eauto. }
  repeat split; auto.
  - rewrite !get_resource_params_elem, <- !elem_of_dom. now rewrite Hd.
  - rewrite !get_resource_params_elem, <- !elem_of_dom. now rewrite Hd.
Qed.

(** *** _int_to_string *)




